(** * Profilia: the report engine and the document reconciler

    A shallow embedding of the financial computations of the Profilia
    front end:

    - the report script (KPI resolver [getKPIValue], the derivations
      [calculateEBITDA] and [calculateBFR], the year helpers
      [getAvailableYears] and [replaceYearPlaceholders], the growth cell
      [computeAndDisplayCAGR] / [renderCAGRCell], the ratio engine
      [calculateMissingRatios] and the liquidity cell of
      [populateKPIMetrics]);
    - the page of the report (the financial table of
      [generateFinancialTable], the narrative of
      [generateFinancialInsights], the metric cells of [populateKPIMetrics]
      and the two formatters);
    - the preview table of the profile view (its own [getKPIValue],
      [formatFinancialNumber] and [renderCAGR]);
    - the company-name check of [verifyProfile] in the profile wizard;
    - the upload list of the wizard ([onDrop], [removeFile],
      [validateStep2]) and the relative times of
      [getMoroccanRelativeTime].

    Conventions of the embedding.

    - A JavaScript number is an IEEE 754 binary64 value, here a primitive
      [float]; every arithmetic operator and comparison is the primitive
      one, so NaN, the two zeros and the infinities behave as in the source.
    - A string is a [string] of bytes holding the UTF-8 encoding of the
      source string.  Equality, concatenation and the substring test agree
      with the source on well-formed text.  White space is the white space
      of the language, in ASCII and beyond; letter case is handled for ASCII
      and for the Latin-1 letters, which covers the labels of the registry,
      and the statements that depend on the case of a label say so.
    - An object used as a map is the list of its own properties in
      enumeration order.  Where the script reads an object under a name
      made from its arguments (the flat key, the year token, the key of the
      registry), the lookup also finds the members every object inherits from
      [Object.prototype]; a normalized year is never such a name, so the
      year tables are read on their own properties.
    - The payload of the report is typed as its contract says: a table maps
      a label to [null] or to a year table, a year table maps a year to a
      number or [null], and the metadata of a table carries its available
      years.
    - A thrown exception is a value of the error monad [js]; [try]/[catch]
      is the monad's [catch].  Console output and DOM writes are left out:
      a function that writes to a cell returns what it writes. *)

From Stdlib Require Import String Ascii List Bool ZArith Lia.
From Stdlib Require Import DecimalString DecimalPos.
From Stdlib Require Import Floats.
From ExtLib Require Import Structures.Monad Structures.MonadExc.
From ExtLib Require Import Data.Monads.EitherMonad.
Import ListNotations.
Import MonadNotation.

Local Open Scope list_scope.
Local Open Scope monad_scope.
Local Open Scope string_scope.

(** ** JavaScript primitives *)

Module Js.

(** *** Strings *)

(** The ASCII members of the WhiteSpace and LineTerminator productions:
    TAB, LF, VT, FF, CR and SP. *)
Definition is_white_space (c : ascii) : bool :=
  let n := nat_of_ascii c in
  ((9 <=? n) && (n <=? 13))%nat || (n =? 32)%nat.

(** The other members, by their UTF-8 bytes: U+00A0 in two bytes; U+1680,
    U+2000 to U+200A, U+2028, U+2029, U+202F, U+205F, U+3000 and U+FEFF in
    three. *)
Definition is_white_space2 (c1 c2 : ascii) : bool :=
  ((nat_of_ascii c1 =? 194) && (nat_of_ascii c2 =? 160))%nat.

Definition is_white_space3 (c1 c2 c3 : ascii) : bool :=
  let n1 := nat_of_ascii c1 in
  let n2 := nat_of_ascii c2 in
  let n3 := nat_of_ascii c3 in
  ((n1 =? 225) && (n2 =? 154) && (n3 =? 128)
   || (n1 =? 226) && (n2 =? 128)
      && ((128 <=? n3) && (n3 <=? 138) || (n3 =? 168) || (n3 =? 169) || (n3 =? 175))
   || (n1 =? 226) && (n2 =? 129) && (n3 =? 159)
   || (n1 =? 227) && (n2 =? 128) && (n3 =? 128)
   || (n1 =? 239) && (n2 =? 187) && (n3 =? 191))%nat.

(** [trimStart]: the leading white space is dropped, one character of one,
    two or three bytes at a time. *)
Fixpoint trim_start (s : string) : string :=
  match s with
  | EmptyString => EmptyString
  | String c1 rest1 =>
      if is_white_space c1 then trim_start rest1
      else
        match rest1 with
        | EmptyString => s
        | String c2 rest2 =>
            if is_white_space2 c1 c2 then trim_start rest2
            else
              match rest2 with
              | EmptyString => s
              | String c3 rest3 =>
                  if is_white_space3 c1 c2 c3 then trim_start rest3 else s
              end
        end
  end.

(** A string of white space only. *)
Definition all_white_space (s : string) : bool :=
  match trim_start s with
  | EmptyString => true
  | String _ _ => false
  end.

(** [trimEnd] drops the trailing white space: what is left of the string
    from a byte on is dropped when it is white space only. *)
Fixpoint trim_end (s : string) : string :=
  match s with
  | EmptyString => EmptyString
  | String c rest => if all_white_space s then EmptyString else String c (trim_end rest)
  end.

(** [String.prototype.trim]. *)
Definition trim (s : string) : string := trim_end (trim_start s).

(** Truthiness of a string: every string but the empty one. *)
Definition truthy_string (s : string) : bool :=
  match s with
  | EmptyString => false
  | String _ _ => true
  end.

Definition lower_ascii (c : ascii) : ascii :=
  let n := nat_of_ascii c in
  if ((65 <=? n) && (n <=? 90))%nat then ascii_of_nat (n + 32) else c.

(** The second byte of a two-byte sequence led by 0xC3 encodes U+00C0 to
    U+00FF; the capitals are U+00C0..U+00DE without the multiplication
    sign U+00D7, and the small letter is 0x20 further. *)
Definition lower_latin1_trail (c : ascii) : ascii :=
  let n := nat_of_ascii c in
  if ((128 <=? n) && (n <=? 158) && negb (n =? 151))%nat
  then ascii_of_nat (n + 32) else c.

Fixpoint lower_from (after_c3 : bool) (s : string) : string :=
  match s with
  | EmptyString => EmptyString
  | String c rest =>
      String (if after_c3 then lower_latin1_trail c else lower_ascii c)
             (lower_from (negb after_c3 && (nat_of_ascii c =? 195)%nat) rest)
  end.

(** [String.prototype.toLowerCase] on text of the characters U+0000 to
    U+00FF; a letter beyond them is left as it is, where the language has
    a small letter for it too. *)
Definition toLowerCase (s : string) : string := lower_from false s.

(** [s.includes(pattern)]: [pattern] occurs somewhere in [s]. *)
Fixpoint includes (s pattern : string) : bool :=
  if String.prefix pattern s then true
  else match s with
       | EmptyString => false
       | String _ rest => includes rest pattern
       end.

(** [s.replace(/c/g, d)] for a one-character pattern. *)
Fixpoint replace_all (c d : ascii) (s : string) : string :=
  match s with
  | EmptyString => EmptyString
  | String a rest => String (if Ascii.eqb a c then d else a) (replace_all c d rest)
  end.

(** [s.replace(c, d)] for a one-character string pattern: the first
    occurrence only. *)
Fixpoint replace_first (c : ascii) (d : string) (s : string) : string :=
  match s with
  | EmptyString => EmptyString
  | String a rest => if Ascii.eqb a c then d ++ rest else String a (replace_first c d rest)
  end.

(** [s.split(sep)] for a one-character separator. *)
Fixpoint split (sep : ascii) (s : string) : list string :=
  match s with
  | EmptyString => [EmptyString]
  | String c rest =>
      if Ascii.eqb c sep then EmptyString :: split sep rest
      else match split sep rest with
           | piece :: pieces => String c piece :: pieces
           | [] => [String c EmptyString]
           end
  end.

(** [xs.join(sep)]. *)
Definition join (sep : string) (xs : list string) : string := String.concat sep xs.

(** *** Integers read from and written to strings *)

Definition digit_value (radix : Z) (c : ascii) : option Z :=
  let n := Z.of_nat (nat_of_ascii c) in
  let v := (if (48 <=? n) && (n <=? 57) then Some (n - 48)
            else if (97 <=? n) && (n <=? 122) then Some (n - 87)
            else if (65 <=? n) && (n <=? 90) then Some (n - 55)
            else None)%Z in
  match v with
  | Some d => if (d <? radix)%Z then Some d else None
  | None => None
  end.

(** The longest prefix of digits, read left to right; [seen] tells
    whether a digit has been read. *)
Fixpoint read_digits (radix : Z) (s : string) (seen : bool) (acc : Z) : option Z :=
  match s with
  | EmptyString => if seen then Some acc else None
  | String c rest =>
      match digit_value radix c with
      | Some d => read_digits radix rest true (acc * radix + d)
      | None => if seen then Some acc else None
      end
  end.

Definition strip_hex_prefix (s : string) : option string :=
  match s with
  | String "0" (String "x" rest) => Some rest
  | String "0" (String "X" rest) => Some rest
  | _ => None
  end.

(** [parseInt(s)] without a radix argument; [None] is NaN.  The result is
    the mathematical integer, which is the source's number whenever it is
    below 2^53 in magnitude. *)
Definition parseInt (s : string) : option Z :=
  let s := trim_start s in
  let '(negative, s) :=
    match s with
    | String "-" rest => (true, rest)
    | String "+" rest => (false, rest)
    | _ => (false, s)
    end in
  let magnitude :=
    match strip_hex_prefix s with
    | Some rest => read_digits 16 rest false 0
    | None => read_digits 10 s false 0
    end in
  match magnitude with
  | Some n => Some (if negative then (- n)%Z else n)
  | None => None
  end.

(** [String(n)] for an integer [n] below 10^21 in magnitude. *)
Definition string_of_integer (n : Z) : string := NilZero.string_of_int (Z.to_int n).

(** [String(parseInt(s) - 1)]. *)
Definition string_of_pred_parseInt (s : string) : string :=
  match parseInt s with
  | Some n => string_of_integer (n - 1)
  | None => "NaN"
  end.

(** *** Values *)

(** What a lookup can produce: [undefined], [null], a number, or an object
    or function, named by the property it was found under (a member
    inherited from [Object.prototype], or the [_metadata] member). *)
Inductive value : Type :=
| Undefined
| Null
| Num (x : float)
| Obj (name : string).

(** A stored JSON leaf: [None] is [null]. *)
Definition of_leaf (c : option float) : value :=
  match c with
  | Some x => Num x
  | None => Null
  end.

(** Truthiness: a number other than the zeros and NaN; every object and
    function. *)
Definition truthy (v : value) : bool :=
  match v with
  | Num x => negb (PrimFloat.eqb x 0 || PrimFloat.is_nan x)
  | Obj _ => true
  | Undefined | Null => false
  end.

(** [v || d]. *)
Definition or_else (v d : value) : value := if truthy v then v else d.

(** ToNumber.  A plain object prints as ["[object Object]"] and a function
    as its source text, neither of which reads as a number. *)
Definition toNumber (v : value) : float :=
  match v with
  | Undefined => PrimFloat.nan
  | Null => 0%float
  | Num x => x
  | Obj _ => PrimFloat.nan
  end.

(** [isNaN(v)]. *)
Definition isNaN (v : value) : bool := PrimFloat.is_nan (toNumber v).

(** [v !== undefined] (strict). *)
Definition defined (v : value) : bool :=
  match v with
  | Undefined => false
  | Null | Num _ | Obj _ => true
  end.

(** [v != null] (loose): neither [null] nor [undefined]. *)
Definition not_nullish (v : value) : bool :=
  match v with
  | Undefined | Null => false
  | Num _ | Obj _ => true
  end.

(** [v !== null] (strict). *)
Definition strict_not_null (v : value) : bool :=
  match v with
  | Null => false
  | Undefined | Num _ | Obj _ => true
  end.

(** [v !== 0] (strict): both zeros are equal to [0], NaN is not. *)
Definition strict_not_zero (v : value) : bool :=
  match v with
  | Num x => negb (PrimFloat.eqb x 0)
  | Undefined | Null | Obj _ => true
  end.

(** *** Objects *)

Definition object (A : Type) : Type := list (string * A).

(** [o[k]] on own properties; [None] is [undefined]. *)
Fixpoint get_own {A : Type} (o : object A) (k : string) : option A :=
  match o with
  | [] => None
  | (k', a) :: rest => if String.eqb k' k then Some a else get_own rest k
  end.

(** [k in o]. *)
Definition has_own {A : Type} (o : object A) (k : string) : bool :=
  match get_own o k with
  | Some _ => true
  | None => false
  end.

(** The properties every plain object inherits from [Object.prototype]. *)
Definition prototype_names : list string :=
  [ "constructor"; "__defineGetter__"; "__defineSetter__"; "hasOwnProperty";
    "__lookupGetter__"; "__lookupSetter__"; "isPrototypeOf";
    "propertyIsEnumerable"; "toString"; "valueOf"; "__proto__";
    "toLocaleString" ].

(** [k] names an inherited member: [o[k]] is defined on every plain object,
    whether or not [o] has a property [k] of its own. *)
Definition inherited (k : string) : bool := existsb (String.eqb k) prototype_names.

(** The property key an inherited member becomes when it is itself used
    as a key: [__proto__] is the prototype object, which prints as
    ["[object Object]"]; the others are native functions, which print as
    their source text ([constructor] is the function [Object]).  The white
    space of that text is the one V8 and JavaScriptCore print. *)
Definition member_key (name : string) : string :=
  if name =? "__proto__" then "[object Object]"
  else "function " ++ (if name =? "constructor" then "Object" else name)
       ++ "() { [native code] }".

(** An entry of the raw table: [null] or a year table. *)
Inductive entry : Type :=
| ENull
| ETable (years : object (option float)).

(** Truthiness of [table[label]]. *)
Definition truthy_entry (e : option entry) : bool :=
  match e with
  | Some (ETable _) => true
  | Some ENull | None => false
  end.

(** *** Exceptions *)

Inductive error : Type :=
| TypeError (message : string).

Definition js : Type -> Type := sum error.

(** [e[k]]: reading a property of [null] or [undefined] throws. *)
Definition member (e : option entry) (k : string) : js value :=
  match e with
  | Some (ETable years) =>
      ret (match get_own years k with
           | Some c => of_leaf c
           | None => Undefined
           end)
  | Some ENull => raise (TypeError "Cannot read properties of null")
  | None => raise (TypeError "Cannot read properties of undefined")
  end.

(** [e?.[k]]: [undefined] when [e] is [null] or [undefined]. *)
Definition optional_member (e : option entry) (k : string) : js value :=
  match e with
  | Some ENull | None => ret Undefined
  | Some (ETable _) => member e k
  end.

(** *** Number.prototype.toFixed *)

(** The integer [n] for which [n / 10^digits] is closest to
    [m * 2^e], the larger one on a tie. *)
Definition scaled_nearest (digits : nat) (m : positive) (e : Z) : Z :=
  let num := (Zpos m * 10 ^ Z.of_nat digits)%Z in
  if (0 <=? e)%Z then (num * 2 ^ e)%Z
  else ((2 * num + 2 ^ (- e)) / 2 ^ (- e + 1))%Z.

Definition at_least_1e21 (m : positive) (e : Z) : bool :=
  ((0 <=? e) && (10 ^ 21 <=? Zpos m * 2 ^ e))%Z.

Fixpoint zeros (k : nat) : string :=
  match k with
  | O => EmptyString
  | S k' => String "0" (zeros k')
  end.

(** The decimal digits of [n], padded to [digits + 1] places, with the
    point before the last [digits] of them. *)
Definition place_point (digits : nat) (n : Z) : string :=
  let m := string_of_integer n in
  let m := zeros (S digits - String.length m) ++ m in
  let k := String.length m in
  match digits with
  | O => m
  | S _ => String.substring 0 (k - digits) m ++ "." ++ String.substring (k - digits) digits m
  end.

(** [x.toFixed(digits)].  From 10^21 on the source prints [x] with
    Number::toString, which is not modelled: the result is [None]
    there. *)
Definition toFixed (digits : nat) (x : float) : option string :=
  match Prim2SF x with
  | S754_nan => Some "NaN"
  | S754_infinity negative => Some (if negative then "-Infinity" else "Infinity")
  | S754_zero _ => Some (place_point digits 0)
  | S754_finite negative m e =>
      if at_least_1e21 m e then None
      else Some ((if negative then "-" else "") ++ place_point digits (scaled_nearest digits m e))
  end.

End Js.

(** ** The report script *)

Module Report.
Import Js.

(** The data the script loads once: [extracted_kpis], [computed_ratios]
    with its [_metadata.available_years], the same member of
    [extracted_kpis], and [fiscal_years].  The two metadata members are
    kept in fields of their own, so the tables list the indicators only;
    a table has its [_metadata] member exactly when the field of its
    available years is given. *)
Record report_data : Type := {
  extractedKPIs : object entry;
  computedRatios : object (option float);
  computedRatios_available_years : option (list string);
  extractedKPIs_available_years : option (list string);
  fiscalYears : option string
}.

Definition yearMappings : object string :=
  [ ("n", "N"); ("n1", "N-1"); ("n2", "N-2");
    ("n3", "N-3"); ("n4", "N-4"); ("n5", "N-5") ].

(** [let normalizedYear = year; if (yearMappings[year]) normalizedYear =
    yearMappings[year];] as the property key the script then reads the year
    tables under.  For a name every object inherits, [yearMappings[year]]
    is the inherited member, which reads as true and takes the place of the
    token. *)
Definition normalizeYear (year : string) : string :=
  match get_own yearMappings year with
  | Some mapped => if truthy_string mapped then mapped else year
  | None => if inherited year then member_key year else year
  end.

Definition kpiNameMappings : object string :=
  [ ("chiffre_d_affaires", "Chiffre d'affaires");
    ("resultat_net", "Résultat Net");
    ("capitaux_propres", "Capitaux propres");
    ("resultat_d_exploitation", "Résultat d'exploitation");
    ("dotations_d_exploitation", "Dotations d'exploitation");
    ("reprises_d_exploitation", "Reprises d'exploitation; transferts de charges");
    ("redevances_credit_bail", "Redevances de crédit-bail");
    ("tresorerie_actif", "Trésorerie-Actif");
    ("titres_valeurs_placement", "Titres Valeurs de placement");
    ("dettes_financement", "Dettes de financement");
    ("tresorerie_passif", "Trésorerie-passif");
    ("tresorerie_nette", "Trésorerie nette");
    ("comptes_associes_actif", "Compte d'associés (Actif)");
    ("comptes_associes_passif", "Compte d'associés (Passif)");
    ("redevances_moins_un_an", "Redevances restant à payer (a moins d'un an)");
    ("redevances_plus_un_an", "Redevances restant à payer (a plus d'un an)");
    ("prix_achat_residuel", "Prix d'achat résiduel en fin du contrat");
    ("actif_circulant", "Actif circulant");
    ("passif_circulant", "Passif circulant");
    ("actif_circulant_total", "Actif circulant total") ].

(** [extractedKPIs[label]?.[year] || 0]. *)
Definition dependent (d : report_data) (label year : string) : js value :=
  v <- optional_member (get_own (extractedKPIs d) label) year ;;
  ret (or_else v (Num 0)).

Definition calculateEBITDA (d : report_data) (year : string) : js value :=
  catch
    (resultatExploitation <- dependent d "Résultat d'exploitation" year ;;
     dotationsExploitation <- dependent d "Dotations d'exploitation" year ;;
     reprisesExploitation <-
       dependent d "Reprises d'exploitation; transferts de charges" year ;;
     let ebitda :=
       (toNumber resultatExploitation + toNumber dotationsExploitation
        - toNumber reprisesExploitation)%float in
     ret (Num ebitda))
    (fun _ => ret Null).

Definition calculateBFR (d : report_data) (year : string) : js value :=
  catch
    (actifCirculant <- dependent d "Actif circulant" year ;;
     passifCirculant <- dependent d "Passif circulant" year ;;
     let bfr := (toNumber actifCirculant - toNumber passifCirculant)%float in
     ret (Num bfr))
    (fun _ => ret Null).

(** The test of the final fallback:
    [key.toLowerCase().includes(searchPattern) ||
     searchPattern.includes(key.toLowerCase())]. *)
Definition pattern_matches (searchPattern key : string) : bool :=
  includes (toLowerCase key) searchPattern || includes searchPattern (toLowerCase key).

(** The loop of the final fallback over [Object.entries(extractedKPIs)];
    falling out of the loop reaches the closing [return null]. *)
Fixpoint search_entries (searchPattern normalizedYear : string)
    (entries : object entry) : js value :=
  match entries with
  | [] => ret Null
  | (key, value) :: rest =>
      if pattern_matches searchPattern key then
        match value with
        | ETable years =>
            if has_own years normalizedYear
            then member (Some value) normalizedYear
            else search_entries searchPattern normalizedYear rest
        | ENull => search_entries searchPattern normalizedYear rest
        end
      else search_entries searchPattern normalizedYear rest
  end.

(** [kpiName.toLowerCase().replace(/_/g, ' ')]. *)
Definition searchPattern_of (kpiName : string) : string :=
  replace_all "_" " " (toLowerCase kpiName).

Definition final_fallback (d : report_data) (kpiName normalizedYear : string) : js value :=
  match extractedKPIs d with
  | [] => ret Null
  | _ :: _ => search_entries (searchPattern_of kpiName) normalizedYear (extractedKPIs d)
  end.

(** [computedRatios[flatKey]]: the entry of that name, or the [_metadata]
    member, or a member inherited from [Object.prototype]; [undefined]
    otherwise. *)
Definition flat_entry (d : report_data) (flatKey : string) : value :=
  match get_own (computedRatios d) flatKey with
  | Some found => of_leaf found
  | None =>
      if inherited flatKey then Obj flatKey
      else
        match computedRatios_available_years d with
        | Some _ => if flatKey =? "_metadata" then Obj flatKey else Undefined
        | None => Undefined
        end
  end.

(** [kpiNameMappings[kpiName]] as the property key [extractedKPIs] is then
    read under: the label of the registry, or the inherited member of that
    name; [None] is [undefined]. *)
Definition dbKey_of (kpiName : string) : option string :=
  match get_own kpiNameMappings kpiName with
  | Some dbKey => Some dbKey
  | None => if inherited kpiName then Some (member_key kpiName) else None
  end.

Definition getKPIValue (d : report_data) (kpiName year : string) : js value :=
  let normalizedYear := normalizeYear year in
  let flatKey := kpiName ++ "_" ++ year in
  if defined (flat_entry d flatKey) then ret (flat_entry d flatKey)
  else if kpiName =? "ebitda" then calculateEBITDA d normalizedYear
  else if kpiName =? "bfr" then calculateBFR d normalizedYear
  else
    match dbKey_of kpiName with
    | Some dbKey =>
        if truthy_string dbKey && truthy_entry (get_own (extractedKPIs d) dbKey)
        then
          v <- member (get_own (extractedKPIs d) dbKey) normalizedYear ;;
          ret (or_else v Null)
        else final_fallback d kpiName normalizedYear
    | None => final_fallback d kpiName normalizedYear
    end.

(** *** Years *)

(** [years[1] || years[0]] and [years[0]] for [years = s.split('-')]. *)
Definition range_current (s : string) : string :=
  match split "-" s with
  | first :: second :: _ => if truthy_string second then second else first
  | first :: [] => first
  | [] => EmptyString
  end.

Definition range_previous (s : string) : string :=
  match split "-" s with
  | first :: _ => first
  | [] => EmptyString
  end.

Definition getAvailableYears (d : report_data) : list string :=
  match computedRatios_available_years d with
  | Some years => years
  | None =>
      match extractedKPIs_available_years d with
      | Some years => years
      | None =>
          match fiscalYears d with
          | Some fy =>
              if truthy_string fy then
                if includes fy "-" then [range_previous fy; range_current fy]
                else [string_of_pred_parseInt fy; fy]
              else ["N"; "N-1"]
          | None => ["N"; "N-1"]
          end
      end
  end.

(** The two labels [replaceYearPlaceholders] substitutes for the
    placeholders, as [(currentYear, previousYear)]; [None] when the
    function returns at once for want of fiscal years. *)
Definition replaceYearPlaceholders (d : report_data) : option (string * string) :=
  match fiscalYears d with
  | Some fy =>
      if truthy_string fy then
        if includes fy "-" then Some (range_current fy, range_previous fy)
        else Some (fy, string_of_pred_parseInt fy)
      else None
  | None => None
  end.

(** *** Growth *)

(** What a growth cell shows: the dash, or the figure with its class. *)
Inductive cagr_cell : Type :=
| NoData
| Change (isPositive : bool) (formatted : option string).

Definition renderCAGRCell (cagr : value) : cagr_cell :=
  if negb (not_nullish cagr) || isNaN cagr then NoData
  else
    let x := toNumber cagr in
    Change (PrimFloat.leb 0 x)
           (option_map (replace_first "." ",") (toFixed 1 x)).

(** The argument [computeAndDisplayCAGR] hands to [renderCAGRCell]. *)
Definition cagr (d : report_data) (kpiName : string) : js value :=
  current <- getKPIValue d kpiName "n" ;;
  previous <- getKPIValue d kpiName "n1" ;;
  if not_nullish current && not_nullish previous
     && negb (isNaN current) && negb (isNaN previous)
     && strict_not_zero previous
  then ret (Num ((toNumber current / toNumber previous - 1) * 100)%float)
  else ret Null.

Definition computeAndDisplayCAGR (d : report_data) (kpiName : string) : js cagr_cell :=
  c <- cagr d kpiName ;;
  ret (renderCAGRCell c).

(** *** Ratios *)

(** [getKPIValue(kpiName, year) || 0]. *)
Definition resolved_or_zero (d : report_data) (kpiName year : string) : js float :=
  v <- getKPIValue d kpiName year ;;
  ret (toNumber (or_else v (Num 0))).

(** [denominator > 0 ? quotient : 0]. *)
Definition guarded (denominator quotient : float) : float :=
  if PrimFloat.ltb 0 denominator then quotient else 0%float.

Definition calculateMissingRatios (d : report_data) : js (object float) :=
  catch
    (chiffreAffaires <- resolved_or_zero d "chiffre_d_affaires" "n" ;;
     resultatNet <- resolved_or_zero d "resultat_net" "n" ;;
     resultatExploitation <- resolved_or_zero d "resultat_d_exploitation" "n" ;;
     capitauxPropres <- resolved_or_zero d "capitaux_propres" "n" ;;
     detteNette <- resolved_or_zero d "dette_nette" "n" ;;
     e <- calculateEBITDA d "N" ;;
     let ebitda := toNumber (or_else e (Num 0)) in
     actifCirculantTotalN <- resolved_or_zero d "actif_circulant_total" "n" ;;
     actifCirculantTotalN1 <- resolved_or_zero d "actif_circulant_total" "n1" ;;
     let actifCirculantTotalMoyen :=
       ((actifCirculantTotalN + actifCirculantTotalN1) / 2)%float in
     ret [ ("marge_ebitda",
             guarded chiffreAffaires (ebitda / chiffreAffaires * 100)%float);
           ("marge_exploitation",
             guarded chiffreAffaires (resultatExploitation / chiffreAffaires * 100)%float);
           ("marge_nette",
             guarded chiffreAffaires (resultatNet / chiffreAffaires * 100)%float);
           ("roe",
             guarded capitauxPropres (resultatNet / capitauxPropres * 100)%float);
           ("roce",
             guarded capitauxPropres (resultatExploitation / capitauxPropres * 100)%float);
           ("gearing",
             guarded capitauxPropres (detteNette / capitauxPropres * 100)%float);
           ("rotation_actifs",
             guarded actifCirculantTotalMoyen
                     (chiffreAffaires / actifCirculantTotalMoyen)%float) ])
    (fun _ =>
       ret [ ("marge_ebitda", 0%float); ("marge_exploitation", 0%float);
             ("marge_nette", 0%float); ("roe", 0%float); ("roce", 0%float);
             ("gearing", 0%float) ]).

(** What the liquidity cell shows: ['N/A'], or the quotient printed with
    two decimals and a comma. *)
Inductive liquidity_cell : Type :=
| NotAvailable
| Liquidity (ratio : float) (text : option string).

(** The [ratio_liquidite_generale] cell of [populateKPIMetrics]. *)
Definition ratioLiquiditeGenerale (d : report_data) : js liquidity_cell :=
  actifCirculant <- getKPIValue d "actif_circulant" "n" ;;
  passifCirculant <- getKPIValue d "passif_circulant" "n" ;;
  if strict_not_null actifCirculant && strict_not_null passifCirculant
     && strict_not_zero passifCirculant
  then
    let ratio := (toNumber actifCirculant / toNumber passifCirculant)%float in
    ret (Liquidity ratio (option_map (replace_first "." ",") (toFixed 2 ratio)))
  else ret NotAvailable.

End Report.

(** ** The preview table of the profile view *)

Module ProfileView.
Import Js.

(** [renderCAGR(current, previous)]: the growth cell of a preview row. *)
Definition renderCAGR (current previous : value) : Report.cagr_cell :=
  if not_nullish current && not_nullish previous
     && negb (isNaN current) && negb (isNaN previous)
     && strict_not_zero previous
  then
    let cagr := ((toNumber current / toNumber previous - 1) * 100)%float in
    Report.Change (PrimFloat.leb 0 cagr)
                  (option_map (replace_first "." ",") (toFixed 1 cagr))
  else Report.NoData.

End ProfileView.

(** ** The profile wizard *)

Module NewProfile.
Import Js.

(** One element of [extracted_info.individual_results]; the company name
    is [null] ([None]) or a string. *)
Record individual_result : Type := {
  company_name : option string
}.

(** The filter [name => name && name.trim()]. *)
Definition named (name : option string) : bool :=
  match name with
  | Some s => truthy_string s && truthy_string (trim s)
  | None => false
  end.

Definition same_name (a b : option string) : bool :=
  match a, b with
  | Some s, Some t => String.eqb s t
  | None, None => true
  | _, _ => false
  end.

(** [Set.prototype.add]: an element already present is not added again,
    a new one goes last. *)
Definition set_add (seen : list (option string)) (x : option string) : list (option string) :=
  if existsb (same_name x) seen then seen else (seen ++ [x])%list.

(** [[...new Set(xs)]]: the distinct elements in order of first
    occurrence. *)
Definition spread_set (xs : list (option string)) : list (option string) :=
  fold_left set_add xs [].

(** An array element inside [join]: [null] prints as the empty string. *)
Definition joined (name : option string) : string :=
  match name with
  | Some s => s
  | None => EmptyString
  end.

Record comparison_result : Type := {
  matches : bool;
  reason : string;
  requires_confirmation : bool;
  recommendation : string;
  document_companies : list (option string)
}.

(** The company-name check of [verifyProfile]: the comparison result it
    hands to [setMismatchData] before opening the mismatch modal, or
    [None] when it goes on without a modal. *)
Definition verifyProfile (individual_results : option (list individual_result))
  : option comparison_result :=
  match individual_results with
  | Some results =>
      if (1 <? List.length results)%nat then
        let documentCompanies := filter named (map company_name results) in
        let uniqueCompanies := spread_set documentCompanies in
        if (1 <? List.length uniqueCompanies)%nat then
          Some {| matches := false;
                  reason := "Different company names detected in uploaded documents";
                  requires_confirmation := true;
                  recommendation :=
                    "Documents contain different company names: "
                    ++ join ", " (map joined uniqueCompanies)
                    ++ ". Please confirm if you want to proceed.";
                  document_companies := uniqueCompanies |}
        else None
      else None
  | None => None
  end.

End NewProfile.

(** ** The resolution order *)

Module Resolution.
Import Js Report.

(** The number stored for [label] at [year], if there is one. *)
Definition stored (d : report_data) (label year : string) : option float :=
  match get_own (extractedKPIs d) label with
  | Some (ETable years) =>
      match get_own years year with
      | Some (Some x) => Some x
      | Some None | None => None
      end
  | Some ENull | None => None
  end.

(** A dependent of a derivation rule: what is missing, and what reads as
    false, counts as 0. *)
Definition dependent_or_zero (d : report_data) (label year : string) : float :=
  match stored d label year with
  | Some x => if truthy (Num x) then x else 0%float
  | None => 0%float
  end.

Definition derived_ebitda (d : report_data) (year : string) : float :=
  (dependent_or_zero d "Résultat d'exploitation" year
   + dependent_or_zero d "Dotations d'exploitation" year
   - dependent_or_zero d "Reprises d'exploitation; transferts de charges" year)%float.

Definition derived_bfr (d : report_data) (year : string) : float :=
  (dependent_or_zero d "Actif circulant" year
   - dependent_or_zero d "Passif circulant" year)%float.

(** Step 2: the derivation rule of a key, for the two keys that have
    one. *)
Definition derivation_rule (key : string) : option (report_data -> string -> float) :=
  if key =? "ebitda" then Some derived_ebitda
  else if key =? "bfr" then Some derived_bfr
  else None.

(** *** Matching a label *)


(** The pattern of a key: the key in small letters, with a space for each
    underscore. *)
Definition pattern_of (key : string) : string :=
  replace_all "_" " " (toLowerCase key).


(** The same, decided. *)
Definition label_matches (key label : string) : bool :=
  includes (toLowerCase label) (pattern_of key)
  || includes (pattern_of key) (toLowerCase label).


(** The search of the final fallback cannot stop at the [_metadata] member
    of the raw table, which the embedding keeps apart: the pattern of the
    key does not occur in its name. *)
Definition skips_metadata (key : string) : bool :=
  negb (includes "_metadata" (pattern_of key)).


(** *** The order the script follows *)

(** Step 3: the key is translated by the registry and the label has a
    year table; the step then answers with the number stored at the year,
    and with [null] for anything there that reads as false. *)
Definition nested_lookup (d : report_data) (key year : string) : option value :=
  match dbKey_of key with
  | Some dbKey =>
      match get_own (extractedKPIs d) dbKey with
      | Some (ETable years) =>
          Some (match get_own years year with
                | Some (Some x) => if truthy (Num x) then Num x else Null
                | Some None | None => Null
                end)
      | Some ENull | None => None
      end
  | None => None
  end.

(** An entry the fuzzy search stops at: its label matches the key and its
    year table contains the year. *)
Definition fuzzy_hit (key year : string) (kv : string * entry) : bool :=
  label_matches key (fst kv)
  && match snd kv with
     | ETable years => has_own years year
     | ENull => false
     end.

(** Step 4: the value at the year in the first such entry. *)
Definition fuzzy_lookup (d : report_data) (key year : string) : option value :=
  match find (fuzzy_hit key year) (extractedKPIs d) with
  | Some (_, ETable years) => option_map of_leaf (get_own years year)
  | Some (_, ENull) | None => None
  end.

Definition resolve (d : report_data) (key token : string) : value :=
  let year := normalizeYear token in
  let flat := flat_entry d (key ++ "_" ++ token) in
  if defined flat then flat
  else
    match derivation_rule key with
    | Some rule => Num (rule d year)
    | None =>
        match nested_lookup d key year with
        | Some v => v
        | None =>
            match fuzzy_lookup d key year with
            | Some v => v
            | None => Null
            end
        end
    end.

(** *** The order in the words of the specification *)



End Resolution.

(** ** Sample payloads *)

Import Js Report Resolution.

(** One raw table with the turnover of two years. *)
Definition turnover_only : report_data :=
  {| extractedKPIs :=
       [ ("Chiffre d'affaires", ETable [ ("N", Some 12000%float); ("N-1", Some 10000%float) ]) ];
     computedRatios := [];
     computedRatios_available_years := None;
     extractedKPIs_available_years := None;
     fiscalYears := None |}.


(** Nothing at all. *)
Definition empty_data : report_data :=
  {| extractedKPIs := [];
     computedRatios := [];
     computedRatios_available_years := None;
     extractedKPIs_available_years := None;
     fiscalYears := None |}.

(** Operating figures of one year: result 500, allowances 100, reversals
    50; current assets 800 against current liabilities 300. *)
Definition operating_figures : report_data :=
  {| extractedKPIs :=
       [ ("Résultat d'exploitation", ETable [ ("N", Some 500%float) ]);
         ("Dotations d'exploitation", ETable [ ("N", Some 100%float) ]);
         ("Reprises d'exploitation; transferts de charges", ETable [ ("N", Some 50%float) ]);
         ("Actif circulant", ETable [ ("N", Some 800%float) ]);
         ("Passif circulant", ETable [ ("N", Some 300%float) ]) ];
     computedRatios := [];
     computedRatios_available_years := None;
     extractedKPIs_available_years := None;
     fiscalYears := None |}.

(** Turnover 1100 after 1000, and a net result of 900 after 1000. *)
Definition two_years : report_data :=
  {| extractedKPIs :=
       [ ("Chiffre d'affaires", ETable [ ("N", Some 1100%float); ("N-1", Some 1000%float) ]);
         ("Résultat Net", ETable [ ("N", Some 900%float); ("N-1", Some 1000%float) ]);
         ("Capitaux propres", ETable [ ("N", Some 400%float) ]) ];
     computedRatios := [ ("dette_nette_n", Some 70%float); ("dette_nette_n1", Some 0%float) ];
     computedRatios_available_years := None;
     extractedKPIs_available_years := None;
     fiscalYears := Some "2022-2023" |}.

(** Negative equity, no turnover, and current liabilities given as 0 in the
    flat ratios. *)
Definition negative_equity : report_data :=
  {| extractedKPIs :=
       [ ("Capitaux propres", ETable [ ("N", Some (-50)%float) ]);
         ("Résultat Net", ETable [ ("N", Some 10%float) ]);
         ("Résultat d'exploitation", ETable [ ("N", Some 30%float) ]) ];
     computedRatios :=
       [ ("actif_circulant_n", Some 800%float); ("passif_circulant_n", Some 0%float) ];
     computedRatios_available_years := None;
     extractedKPIs_available_years := None;
     fiscalYears := Some "2023" |}.

(** Three periods merged from several documents. *)
Definition with_metadata : report_data :=
  {| extractedKPIs := [];
     computedRatios := [];
     computedRatios_available_years := Some [ "N-2"; "N-1"; "N" ];
     extractedKPIs_available_years := Some [ "N-1"; "N" ];
     fiscalYears := Some "2023" |}.

(** Equity present for the current year, but stored as zero. *)
Definition zero_equity : report_data :=
  {| extractedKPIs :=
       [ ("Capitaux propres", ETable [ ("N", Some 0%float); ("2021", Some 40%float) ]) ];
     computedRatios := [];
     computedRatios_available_years := None;
     extractedKPIs_available_years := None;
     fiscalYears := None |}.

(** ** Sample uploads *)

Definition named_result (name : string) : NewProfile.individual_result :=
  {| NewProfile.company_name := Some name |}.

Definition unnamed_result : NewProfile.individual_result :=
  {| NewProfile.company_name := None |}.

(** ** Predicates of the statements *)

(** A stored number that [x || 0] leaves as it is: the positive zero, or a
    number that reads as true (neither a zero nor NaN). *)
Definition kept_by_or_zero (x : float) : Prop :=
  x = 0%float \/ truthy (Num x) = true.

(** Growth is computed when both resolved values are numbers other than
    NaN and the previous one is not a zero. *)
Definition growth_defined (current previous : value) : Prop :=
  exists c p, current = Num c /\ previous = Num p
              /\ PrimFloat.is_nan c = false /\ PrimFloat.is_nan p = false
              /\ PrimFloat.eqb p 0 = false.

(** [v || 0], as a number. *)
Definition number_or_zero (v : value) : float := toNumber (or_else v (Num 0)).

(** The same number up to the sign of zero: identical values, or two
    zeros, which [===] equates. *)
Definition same_number (x y : float) : Prop :=
  x = y \/ (PrimFloat.eqb x 0 = true /\ PrimFloat.eqb y 0 = true).

(** The six tokens of [yearMappings]. *)
Definition mapped_tokens : list string := [ "n"; "n1"; "n2"; "n3"; "n4"; "n5" ].

(** The white space of the language, character by character, each in
    UTF-8: TAB, LF, VT, FF, CR, SP, U+00A0, U+1680, U+2000 to U+200A, U+2028,
    U+2029, U+202F, U+205F, U+3000 and U+FEFF. *)
Definition of_bytes (codes : list nat) : string :=
  fold_right (fun n s => String (ascii_of_nat n) s) EmptyString codes.

Definition white_space : list string :=
  map of_bytes
    [ [9]; [10]; [11]; [12]; [13]; [32]; [194; 160]; [225; 154; 128];
      [226; 128; 128]; [226; 128; 129]; [226; 128; 130]; [226; 128; 131];
      [226; 128; 132]; [226; 128; 133]; [226; 128; 134]; [226; 128; 135];
      [226; 128; 136]; [226; 128; 137]; [226; 128; 138]; [226; 128; 168];
      [226; 128; 169]; [226; 128; 175]; [226; 129; 159]; [227; 128; 128];
      [239; 187; 191] ]%nat.

(** A blank string: white space and nothing else. *)
Inductive blank : string -> Prop :=
| blank_empty : blank EmptyString
| blank_more (w s : string) : In w white_space -> blank s -> blank (w ++ s).

(** The last character of a string, and the strings that end in a
    digit. *)
Fixpoint last_char (s : string) : option ascii :=
  match s with
  | EmptyString => None
  | String c EmptyString => Some c
  | String _ rest => last_char rest
  end.

Definition ends_in_digit (s : string) : bool :=
  match last_char s with
  | Some c => ((48 <=? nat_of_ascii c) && (nat_of_ascii c <=? 57))%nat
  | None => false
  end.

(** ** The report script: table, labels, formats and narrative *)

Module ReportPage.
Import Js Report.

(** [parseFloat(x)] for a number [x]: the number is printed and read back,
    which gives [x] again (Number::toString prints digits that identify
    [x]), but for the negative zero, printed as ["0"]. *)
Definition parseFloat_number (x : float) : float :=
  if PrimFloat.eqb x 0 then 0%float else x.

(** [year.toLowerCase().replace('-', '')]. *)
Definition yearKey (year : string) : string :=
  replace_first "-" "" (toLowerCase year).

(** [fiscalYears] where the script tests it for truth. *)
Definition given_fiscalYears (d : report_data) : option string :=
  match fiscalYears d with
  | Some fy => if truthy_string fy then Some fy else None
  | None => None
  end.

(** Without fiscal years the script takes the first year of the first
    raw entry, in the order the language enumerates them; the tables of the
    payload are lists in that order, and the metadata, kept apart, is not
    among the entries. *)
Definition getCurrentYearInfo (d : report_data) : string :=
  match given_fiscalYears d with
  | Some fy => if includes fy "-" then range_current fy else fy
  | None =>
      match extractedKPIs d with
      | (_, ETable ((year, _) :: _)) :: _ => year
      | _ => "Année N"
      end
  end.

(** The label of a year column ([displayYear] in [generateFinancialTable],
    the same mapping as [yearLabels] in [initCharts]). *)
Definition displayYear (d : report_data) (year : string) : string :=
  match given_fiscalYears d with
  | Some fy =>
      if year =? "N" then (if includes fy "-" then range_current fy else fy)
      else if year =? "N-1"
           then (if includes fy "-" then range_previous fy else string_of_pred_parseInt fy)
           else year
  | None => year
  end.

Definition cagrHeader (d : report_data) : string :=
  match given_fiscalYears d with
  | Some fy =>
      "CAGR (" ++ (if includes fy "-" then range_current fy else fy) ++ ")"
  | None => "CAGR (%)"
  end.

(** The header row [generateFinancialTable] builds. *)
Definition tableHeader (d : report_data) : list string :=
  ("Indicateur Clé"
     :: map (fun year => displayYear d year ++ " (MAD)") (rev (getAvailableYears d)))
  ++ [cagrHeader d].

(** [formatFinancialNumber]: N/A for [null], [undefined] and what
    [parseFloat] reads as NaN, objects and functions among them; else the
    number in millions, thousands or units with one decimal and a comma. *)
Definition formatFinancialNumber (num : value) (currency : string) : option string :=
  match num with
  | Null | Undefined => Some "N/A"
  | Obj _ => Some "N/A"
  | Num x =>
      let number := parseFloat_number x in
      if PrimFloat.is_nan number then Some "N/A"
      else if PrimFloat.leb 1000000 (PrimFloat.abs number) then
        option_map (fun t => replace_first "." "," t ++ " M " ++ currency)
                   (toFixed 1 (number / 1000000)%float)
      else if PrimFloat.leb 1000 (PrimFloat.abs number) then
        option_map (fun t => replace_first "." "," t ++ " K " ++ currency)
                   (toFixed 1 (number / 1000)%float)
      else
        option_map (fun t => replace_first "." "," t ++ " " ++ currency)
                   (toFixed 1 number)
  end.

Definition formatPercentage (num : value) : option string :=
  match num with
  | Null | Undefined => Some "N/A"
  | Obj _ => Some "N/A"
  | Num x =>
      let number := parseFloat_number x in
      if PrimFloat.is_nan number then Some "N/A"
      else option_map (fun t => replace_first "." "," t ++ "%") (toFixed 1 number)
  end.

(** The keys of the rows of the financial table, in order. *)
Definition table_keys : list string :=
  [ "chiffre_d_affaires"; "ebitda"; "resultat_net"; "tresorerie_nette";
    "capitaux_propres"; "dette_nette"; "bfr" ].

(** The value cells of one row of [generateFinancialTable], newest first
    as the source has it: one per available year, reversed. *)
Fixpoint row_cells (d : report_data) (key : string) (years : list string)
  : js (list (option string)) :=
  match years with
  | [] => ret []
  | year :: rest =>
      v <- getKPIValue d key (yearKey year) ;;
      cells <- row_cells d key rest ;;
      ret (formatFinancialNumber v "MAD" :: cells)
  end.

Definition tableRow (d : report_data) (key : string) : js (list (option string)) :=
  row_cells d key (rev (getAvailableYears d)).

(** *** The narrative of [generateFinancialInsights] *)

Definition cagrText (revenueN revenueN1 : float) : option string :=
  if PrimFloat.ltb 0 revenueN && PrimFloat.ltb 0 revenueN1 then
    let growthRate := ((revenueN - revenueN1) / revenueN1 * 100)%float in
    if PrimFloat.ltb (PrimFloat.abs growthRate) 1 then Some "stabilité"
    else if PrimFloat.ltb 0 growthRate then
      option_map (fun t => "croissance de " ++ t ++ "%")
                 (toFixed 1 (PrimFloat.abs growthRate))
    else
      option_map (fun t => "contraction de " ++ t ++ "%")
                 (toFixed 1 (PrimFloat.abs growthRate))
  else if PrimFloat.ltb 0 revenueN && PrimFloat.eqb revenueN1 0 then
    Some "croissance (données N-1 non disponibles)"
  else if PrimFloat.eqb revenueN 0 && PrimFloat.ltb 0 revenueN1 then
    Some "contraction (données N non disponibles)"
  else Some "évolution à analyser (données insuffisantes)".

(** The margin text and the profitability text. *)
Definition margin_texts (d : report_data) (revenueN ebitdaN : float)
  : js (option string * string) :=
  if PrimFloat.ltb 0 ebitdaN && PrimFloat.ltb 0 revenueN then
    let ebitdaMargin := (ebitdaN / revenueN * 100)%float in
    let ebitdaMarginText := option_map (fun t => t ++ "%") (toFixed 1 ebitdaMargin) in
    ebitdaN1 <- resolved_or_zero d "ebitda" "n1" ;;
    revenueN1_prev <- resolved_or_zero d "chiffre_d_affaires" "n1" ;;
    if PrimFloat.ltb 0 ebitdaN1 && PrimFloat.ltb 0 revenueN1_prev then
      let marginN1 := (ebitdaN1 / revenueN1_prev * 100)%float in
      let marginChange := (ebitdaMargin - marginN1)%float in
      ret (ebitdaMarginText,
           if PrimFloat.ltb (PrimFloat.abs marginChange) 0.5 then "stable"
           else if PrimFloat.ltb 0.5 marginChange then "en progression"
           else "sous pression")
    else if PrimFloat.ltb 0 ebitdaN && PrimFloat.ltb 0 revenueN then
      ret (ebitdaMarginText,
           if PrimFloat.ltb 15 ebitdaMargin then "solide"
           else if PrimFloat.ltb 8 ebitdaMargin then "correcte"
           else if PrimFloat.ltb 0 ebitdaMargin then "modeste"
           else "déficitaire")
    else ret (ebitdaMarginText, "à évaluer")
  else ret (Some "N/A", "à évaluer").

(** The text [generateFinancialInsights] writes. *)
Definition generateFinancialInsights (d : report_data) : js (option string) :=
  catch
    (revenueN <- resolved_or_zero d "chiffre_d_affaires" "n" ;;
     revenueN1 <- resolved_or_zero d "chiffre_d_affaires" "n1" ;;
     revenueN2 <- resolved_or_zero d "chiffre_d_affaires" "n2" ;;
     ebitdaN <- resolved_or_zero d "ebitda" "n" ;;
     revenueN_prev <- resolved_or_zero d "chiffre_d_affaires" "n1" ;;
     texts <- margin_texts d revenueN ebitdaN ;;
     let insightsText :=
       match cagrText revenueN revenueN1, fst texts with
       | Some growth, Some margin =>
           Some ("Sur la période traitée, l'entreprise affiche une " ++ growth
                 ++ ". La marge EBITDA s'établit à " ++ margin
                 ++ ", traduisant une rentabilité " ++ snd texts ++ ".")
       | _, _ => None
       end in
     if PrimFloat.ltb 0 revenueN then
       ret (match insightsText, formatFinancialNumber (Num revenueN) "MAD" with
            | Some text, Some revenueFormatted =>
                Some (text ++ " Le chiffre d'affaires s'élève à " ++ revenueFormatted ++ ".")
            | _, _ => None
            end)
     else ret insightsText)
    (fun _ => ret (Some "Analyse de performance en cours de génération...")).

(** *** The metric cells of [populateKPIMetrics] *)

Definition metricMappings : object string :=
  [ ("operatingmargin", "marge_exploitation"); ("netmargin", "marge_nette");
    ("roe", "roe"); ("roce", "roce"); ("gearing", "gearing"); ("gearin", "gearing");
    ("rotation_actifs", "rotation_actifs") ].

(** [ratios[ratioKey]] as a value: [undefined] for a key the object lacks. *)
Definition ratio_value (ratios : object float) (ratioKey : string) : value :=
  match get_own ratios ratioKey with
  | Some x => Num x
  | None => Undefined
  end.

(** The text of each metric element, in the order of [metricMappings]. *)
Definition metricCells (d : report_data) : js (object (option string)) :=
  ratios <- calculateMissingRatios d ;;
  ret (map (fun m => (fst m, formatPercentage (ratio_value ratios (snd m)))) metricMappings).

End ReportPage.

(** ** The preview table of the profile view: values and rows *)

Module Preview.
Import Js.

(** The two members of the embedded data the preview reads. *)
Record preview_data : Type := {
  kpis : object entry;
  computed_ratios : object (option float)
}.

Record kpi : Type := {
  name : string;
  key : string;
  dbKey : string
}.

Definition kpiList : list kpi :=
  [ {| name := "Chiffre d'Affaires"; key := "chiffre_d_affaires"; dbKey := "Chiffre d'affaires" |};
    {| name := "EBITDA"; key := "ebitda"; dbKey := "EBITDA" |};
    {| name := "Résultat Net"; key := "resultat_net"; dbKey := "Résultat Net" |};
    {| name := "Trésorerie Nette"; key := "tresorerie_nette"; dbKey := "Trésorerie nette" |};
    {| name := "Capitaux Propres"; key := "capitaux_propres"; dbKey := "Capitaux propres" |};
    {| name := "Dette Nette"; key := "dette_nette"; dbKey := "Dette nette" |};
    {| name := "BFR"; key := "bfr"; dbKey := "BFR" |} ].

Definition yearMapping : object string := [ ("n", "N"); ("n1", "N-1") ].

(** [yearMapping[year] || year]. *)
Definition normalizedYear (year : string) : string :=
  match get_own yearMapping year with
  | Some mapped => if truthy_string mapped then mapped else year
  | None => year
  end.

Definition getKPIValue (d : preview_data) (k : kpi) (year : string) : js value :=
  let flatKey := key k ++ "_" ++ year in
  match get_own (computed_ratios d) flatKey with
  | Some found => ret (of_leaf found)
  | None =>
      if truthy_entry (get_own (kpis d) (dbKey k)) then
        v <- member (get_own (kpis d) (dbKey k)) (normalizedYear year) ;;
        match v with
        | Undefined => ret Null
        | _ => ret v
        end
      else ret Null
  end.

(** [formatFinancialNumber] of the preview: the dash for no value, then
    millions with one decimal, thousands and units with none. *)
Definition formatFinancialNumber (v : value) : option string :=
  if negb (not_nullish v) || isNaN v then Some "-"
  else
    let num := ReportPage.parseFloat_number (toNumber v) in
    if PrimFloat.leb 1000000 (PrimFloat.abs num) then
      option_map (fun t => replace_first "." "," t ++ "M") (toFixed 1 (num / 1000000)%float)
    else if PrimFloat.leb 1000 (PrimFloat.abs num) then
      option_map (fun t => replace_first "." "," t ++ "K") (toFixed 0 (num / 1000)%float)
    else option_map (replace_first "." ",") (toFixed 0 num).

(** The four cells of a row. *)
Record row : Type := {
  label : string;
  cellN : option string;
  cellN1 : option string;
  growth : Report.cagr_cell
}.

Definition tableRow (d : preview_data) (k : kpi) : js row :=
  valueN <- getKPIValue d k "n" ;;
  valueN1 <- getKPIValue d k "n1" ;;
  ret {| label := name k;
         cellN := formatFinancialNumber valueN;
         cellN1 := formatFinancialNumber valueN1;
         growth := ProfileView.renderCAGR valueN valueN1 |}.

End Preview.

(** ** The upload list of the profile wizard *)

Module Upload.

Record file : Type := {
  file_name : string;
  file_size : Z
}.

(** An entry of the list: the file, its identifier, its status. *)
Record selected : Type := {
  selected_file : file;
  id : string;
  status : string
}.

(** The entries made for the files to add; [fresh k] is the identifier
    drawn for the [k]-th of them. *)
Fixpoint newFiles (fresh : nat -> string) (k : nat) (filesToAdd : list file) : list selected :=
  match filesToAdd with
  | [] => []
  | f :: rest =>
      {| selected_file := f; id := fresh k; status := "ready" |}
        :: newFiles fresh (S k) rest
  end.

(** The list [onDrop] leaves: the accepted files that are not too large,
    as many as there are slots left, go after the files already there. *)
Definition onDrop (maxFiles : nat) (maxSize : Z) (fresh : nat -> string)
    (files : list selected) (acceptedFiles : list file) : list selected :=
  match acceptedFiles with
  | [] => files
  | _ :: _ =>
      let validFiles := filter (fun f => negb (maxSize <? file_size f)%Z) acceptedFiles in
      match validFiles with
      | [] => files
      | _ :: _ =>
          let remainingSlots := (maxFiles - List.length files)%nat in
          let filesToAdd := firstn remainingSlots validFiles in
          match filesToAdd with
          | [] => files
          | _ :: _ => (files ++ newFiles fresh 0 filesToAdd)%list
          end
      end
  end.

Definition removeFile (files : list selected) (fileId : string) : list selected :=
  filter (fun f => negb (String.eqb (id f) fileId)) files.

(** What [onFilesSelected] receives. *)
Definition selection (files : list selected) : list file := map selected_file files.

(** [validateStep1] and [validateStep2] of the wizard. *)
Definition validateStep1 (company_name : string) : bool :=
  (0 <? String.length (Js.trim company_name))%nat.

Definition validateStep2 (uploadedFiles : list file) : bool :=
  ((0 <? List.length uploadedFiles) && (List.length uploadedFiles <=? 3))%nat.

End Upload.

(** ** Relative times *)

Module Dates.

(** What [getMoroccanRelativeTime] returns: a text, or the date that
    [formatMoroccanDate] prints for an older instant. *)
Inductive relative : Type :=
| Text (text : string)
| OlderDate.

(** [`${count} ${unit}${count > 1 ? 's' : ''} ago`]. *)
Definition ago (count : Z) (unit : string) : string :=
  Js.string_of_integer count ++ " " ++ unit ++ (if (1 <? count)%Z then "s" else "") ++ " ago".

(** [time] is [date.getTime()] in milliseconds, [None] for an empty or
    invalid date string; [now] is the clock in milliseconds.  Instants are
    integers, exact as numbers, and so are the quotients as long as the
    difference is below 2^43 seconds. *)
Definition getMoroccanRelativeTime (time : option Z) (now : Z) : relative :=
  match time with
  | None => Text ""
  | Some t =>
      let moroccanDate := (t + 1 * 60 * 60 * 1000)%Z in
      let diffInSeconds := ((now - moroccanDate) / 1000)%Z in
      if (diffInSeconds <? 60)%Z then Text "Just now"
      else if (diffInSeconds <? 3600)%Z then Text (ago (diffInSeconds / 60) "minute")
      else if (diffInSeconds <? 86400)%Z then Text (ago (diffInSeconds / 3600) "hour")
      else if (diffInSeconds <? 2592000)%Z then Text (ago (diffInSeconds / 86400) "day")
      else OlderDate
  end.

End Dates.

(** ** Further sample payloads *)

(** One document of the fiscal year 2023: the raw tables are keyed by the
    relative years, and there is no list of available years. *)
Definition single_document : report_data :=
  {| extractedKPIs :=
       [ ("Chiffre d'affaires", ETable [ ("N", Some 1100%float); ("N-1", Some 1000%float) ]);
         ("Capitaux propres", ETable [ ("N", Some 400%float); ("N-1", Some 380%float) ]) ];
     computedRatios := [];
     computedRatios_available_years := None;
     extractedKPIs_available_years := None;
     fiscalYears := Some "2023" |}.

(** The relative labels of the year columns that the resolver knows. *)
Definition relative_labels : list string := [ "N"; "N-1"; "N-2"; "N-3"; "N-4"; "N-5" ].

(** A turnover of last year only. *)
Definition zero_turnover : report_data :=
  {| extractedKPIs :=
       [ ("Chiffre d'affaires", ETable [ ("N", Some 0%float); ("N-1", Some 1000%float) ]) ];
     computedRatios := [];
     computedRatios_available_years := None;
     extractedKPIs_available_years := None;
     fiscalYears := None |}.

(** A turnover too large for a number in both years. *)
Definition infinite_turnover : report_data :=
  {| extractedKPIs := [];
     computedRatios :=
       [ ("chiffre_d_affaires_n", Some PrimFloat.infinity);
         ("chiffre_d_affaires_n1", Some PrimFloat.infinity) ];
     computedRatios_available_years := None;
     extractedKPIs_available_years := None;
     fiscalYears := None |}.



(** Operating figures of one year with a turnover of 2000, a net result
    of 150 and equity of 400. *)
Definition operating_turnover : report_data :=
  {| extractedKPIs :=
       [ ("Chiffre d'affaires", ETable [ ("N", Some 2000%float) ]);
         ("Résultat d'exploitation", ETable [ ("N", Some 500%float) ]);
         ("Dotations d'exploitation", ETable [ ("N", Some 100%float) ]);
         ("Reprises d'exploitation; transferts de charges", ETable [ ("N", Some 50%float) ]);
         ("Résultat Net", ETable [ ("N", Some 150%float) ]);
         ("Capitaux propres", ETable [ ("N", Some 400%float) ]) ];
     computedRatios := [];
     computedRatios_available_years := None;
     extractedKPIs_available_years := None;
     fiscalYears := None |}.

(** ** The preview on the payload of the report *)

(** The data of the preview holding the tables of a report payload. *)
Definition preview_of (d : report_data) : Preview.preview_data :=
  {| Preview.kpis := extractedKPIs d;
     Preview.computed_ratios := computedRatios d |}.

(** The rows of the preview whose label is the one the registry of the
    report gives to the same key. *)
Definition shared_kpis : list Preview.kpi :=
  filter (fun k => match get_own kpiNameMappings (Preview.key k) with
                   | Some label => String.eqb label (Preview.dbKey k)
                   | None => false
                   end)
         Preview.kpiList.

(** ** The life of the upload list *)

(** What the user does to the list: drop files (with the identifiers drawn
    for them), or remove the entries of an identifier. *)
Inductive action : Type :=
| Drop (fresh : nat -> string) (acceptedFiles : list Upload.file)
| Remove (fileId : string).

Definition step (maxFiles : nat) (maxSize : Z) (files : list Upload.selected) (a : action)
  : list Upload.selected :=
  match a with
  | Drop fresh acceptedFiles => Upload.onDrop maxFiles maxSize fresh files acceptedFiles
  | Remove fileId => Upload.removeFile files fileId
  end.

(** The list after a sequence of actions, from the list [files]. *)
Definition run (maxFiles : nat) (maxSize : Z) (files : list Upload.selected)
    (actions : list action) : list Upload.selected :=
  fold_left (step maxFiles maxSize) actions files.

(** No file of the list is larger than [maxSize]. *)
Definition within_size (maxSize : Z) (files : list Upload.selected) : bool :=
  forallb (fun s => (Upload.file_size (Upload.selected_file s) <=? maxSize)%Z) files.

Definition report_file : Upload.file :=
  {| Upload.file_name := "bilan-2023.pdf"; Upload.file_size := 2097152 |}.

Definition large_file : Upload.file :=
  {| Upload.file_name := "annexes.pdf"; Upload.file_size := 33554432 |}.

(** Identifiers that differ from one file to the next. *)
Definition numbered (k : nat) : string := "f" ++ string_of_integer (Z.of_nat k).

(** * Properties *)

(** ** Proof steps used throughout *)

(** Evaluate the digit read from a literal character. *)
Ltac read_digit :=
  match goal with
  | |- context [digit_value 10 ?c] =>
      let v := eval vm_compute in (digit_value 10 c) in
      change (digit_value 10 c) with v; cbv iota
  end.

(** Split a conjunction into all its parts. *)
Ltac split_all :=
  repeat match goal with
         | |- _ /\ _ => split
         end.

(** A token is not one of the six mapped ones, by comparison with each. *)
Ltac unmapped :=
  let H := fresh in
  intros H; cbn in H;
  repeat match type of H with
         | _ \/ _ => destruct H as [H | H]
         end;
  solve [discriminate H | contradiction H].

(** ** Lookups *)

Section Lookups.
Context {A : Type}.

Lemma has_own_get (o : object A) (k : string) :
  has_own o k = true -> exists a, get_own o k = Some a.
Proof.
  unfold has_own. destruct (get_own o k) as [a|]; [eauto | discriminate].
Qed.

End Lookups.

Lemma kpiNameMappings_truthy (key dbKey : string) :
  get_own kpiNameMappings key = Some dbKey -> truthy_string dbKey = true.
Proof.
  unfold kpiNameMappings. cbn [get_own]. intros K.
  repeat match type of K with
         | (if ?b then _ else _) = _ => destruct b
         end;
    try discriminate; injection K as <-; reflexivity.
Qed.

(** A key of the registry is read as its label. *)
Lemma dbKey_of_registered (key dbKey : string) :
  get_own kpiNameMappings key = Some dbKey -> dbKey_of key = Some dbKey.
Proof. intros K. unfold dbKey_of. rewrite K. reflexivity. Qed.

Lemma member_key_truthy (name : string) : truthy_string (member_key name) = true.
Proof. unfold member_key. destruct (name =? "__proto__"); reflexivity. Qed.

Lemma dbKey_of_truthy (key dbKey : string) :
  dbKey_of key = Some dbKey -> truthy_string dbKey = true.
Proof.
  unfold dbKey_of. destruct (get_own kpiNameMappings key) as [label|] eqn:K.
  - intros H. injection H as <-. exact (kpiNameMappings_truthy _ _ K).
  - destruct (inherited key); [|discriminate].
    intros H. injection H as <-. apply member_key_truthy.
Qed.

(** A flat key that is neither an entry nor an inherited name nor the
    metadata member is undefined. *)
Lemma flat_entry_own (d : report_data) (flatKey : string) (found : option float) :
  get_own (computedRatios d) flatKey = Some found -> flat_entry d flatKey = of_leaf found.
Proof. intros F. unfold flat_entry. rewrite F. reflexivity. Qed.

Lemma flat_entry_plain (d : report_data) (flatKey : string) :
  get_own (computedRatios d) flatKey = None ->
  inherited flatKey = false -> (flatKey =? "_metadata") = false ->
  flat_entry d flatKey = Undefined.
Proof.
  intros F I M. unfold flat_entry. rewrite F, I, M.
  destruct (computedRatios_available_years d); reflexivity.
Qed.

(** The flat keys of a key of the registry are plain names. *)
Lemma registered_flat_plain (key dbKey token : string) :
  get_own kpiNameMappings key = Some dbKey ->
  inherited (key ++ "_" ++ token) = false
  /\ (key ++ "_" ++ token =? "_metadata") = false.
Proof.
  unfold kpiNameMappings. cbn [get_own]. intros K.
  repeat match type of K with
         | (if String.eqb ?a key then _ else _) = _ =>
             destruct (String.eqb_spec a key) as [<-|_]; [split; reflexivity|]
         end.
  discriminate K.
Qed.

Lemma registered_flat_undefined (d : report_data) (key dbKey token : string) :
  get_own kpiNameMappings key = Some dbKey ->
  get_own (computedRatios d) (key ++ "_" ++ token) = None ->
  flat_entry d (key ++ "_" ++ token) = Undefined.
Proof.
  intros K F. destruct (registered_flat_plain key dbKey token K) as [I M].
  now apply flat_entry_plain.
Qed.

Lemma of_leaf_defined (c : option float) : defined (of_leaf c) = true.
Proof. destruct c; reflexivity. Qed.

(** ** Occurrences *)





(** ** The script returns what the resolution order gives *)

Section Returns.
Variable d : report_data.

Lemma dependent_returns (label year : string) :
  dependent d label year = inr (Num (dependent_or_zero d label year)).
Proof.
  unfold dependent, dependent_or_zero, stored, optional_member, member.
  destruct (get_own (extractedKPIs d) label) as [[|years]|]; simpl; try reflexivity.
  destruct (get_own years year) as [[x|]|]; simpl; try reflexivity.
  unfold or_else. simpl. destruct (negb _); reflexivity.
Qed.

Lemma calculateEBITDA_returns (year : string) :
  calculateEBITDA d year = inr (Num (derived_ebitda d year)).
Proof.
  unfold calculateEBITDA. rewrite !dependent_returns. reflexivity.
Qed.

Lemma calculateBFR_returns (year : string) :
  calculateBFR d year = inr (Num (derived_bfr d year)).
Proof.
  unfold calculateBFR. rewrite !dependent_returns. reflexivity.
Qed.

(** The loop of the final fallback stops at the entry [find] picks. *)
Lemma search_entries_find (key year : string) (entries : object entry) :
  search_entries (searchPattern_of key) year entries =
  inr (match find (fuzzy_hit key year) entries with
       | Some (_, ETable years) =>
           match option_map of_leaf (get_own years year) with
           | Some v => v
           | None => Null
           end
       | Some (_, ENull) | None => Null
       end).
Proof.
  induction entries as [|[label e] rest IH]; simpl; [reflexivity|].
  unfold fuzzy_hit at 1. simpl.
  change (pattern_matches (searchPattern_of key) label) with (label_matches key label).
  destruct (label_matches key label); simpl; [|exact IH].
  destruct e as [|years]; [exact IH|].
  destruct (has_own years year) eqn:H; [|exact IH].
  apply has_own_get in H. destruct H as [c H]. rewrite H. reflexivity.
Qed.

Lemma final_fallback_returns (key year : string) :
  final_fallback d key year =
  inr (match fuzzy_lookup d key year with
       | Some v => v
       | None => Null
       end).
Proof.
  unfold final_fallback, fuzzy_lookup.
  destruct (extractedKPIs d) as [|kv rest] eqn:E; [reflexivity|].
  rewrite search_entries_find.
  destruct (find (fuzzy_hit key year) (kv :: rest)) as [[k e]|];
    [|reflexivity].
  destruct e; reflexivity.
Qed.

(** The resolver never throws: it returns what the resolution order
    gives. *)
Lemma getKPIValue_returns (key token : string) :
  getKPIValue d key token = inr (resolve d key token).
Proof.
  unfold getKPIValue, resolve, derivation_rule.
  destruct (defined (flat_entry d (key ++ "_" ++ token))); [reflexivity|].
  destruct (key =? "ebitda"); [apply calculateEBITDA_returns|].
  destruct (key =? "bfr"); [apply calculateBFR_returns|].
  unfold nested_lookup.
  destruct (dbKey_of key) as [dbKey|] eqn:K;
    [|apply final_fallback_returns].
  rewrite (dbKey_of_truthy _ _ K). simpl.
  destruct (get_own (extractedKPIs d) dbKey) as [[|years]|]; simpl;
    try apply final_fallback_returns.
  destruct (get_own years (normalizeYear token)) as [[x|]|]; reflexivity.
Qed.

(** What the resolver gives once the flat entry is undefined. *)
Lemma resolve_without_flat (key token : string) :
  flat_entry d (key ++ "_" ++ token) = Undefined ->
  resolve d key token =
  match derivation_rule key with
  | Some rule => Num (rule d (normalizeYear token))
  | None =>
      match nested_lookup d key (normalizeYear token) with
      | Some v => v
      | None =>
          match fuzzy_lookup d key (normalizeYear token) with
          | Some v => v
          | None => Null
          end
      end
  end.
Proof. intros F. unfold resolve. rewrite F. reflexivity. Qed.



End Returns.

(** ** Binary64 facts *)

Section Binary64.

(** A denominator at or below zero fails the test [0 < denominator]. *)
Lemma leb_zero_not_ltb (x : float) :
  PrimFloat.leb x 0 = true -> PrimFloat.ltb 0 x = false.
Proof.
  rewrite leb_spec, ltb_spec. unfold SFleb, SFltb.
  change (Prim2SF 0) with (S754_zero false).
  destruct (Prim2SF x) as [[|]|[|]| |[|] m e]; cbn; congruence.
Qed.

Lemma eqb_zero_spec (x : float) :
  PrimFloat.eqb x 0 = true <-> exists s, Prim2SF x = S754_zero s.
Proof.
  rewrite eqb_spec. unfold SFeqb. change (Prim2SF 0) with (S754_zero false).
  destruct (Prim2SF x) as [s|[|]| |[|] m e]; cbn; split;
    try discriminate; try (intros [s' H]; discriminate H); eauto.
Qed.

Lemma same_number_spec (x y : float) :
  same_number x y <->
  (Prim2SF x = Prim2SF y
   \/ exists s s', Prim2SF x = S754_zero s /\ Prim2SF y = S754_zero s').
Proof.
  unfold same_number. rewrite !eqb_zero_spec. split.
  - intros [-> | [[s Hs] [s' Hs']]]; [left; reflexivity | right; eauto].
  - intros [H | (s & s' & Hs & Hs')]; [left; apply Prim2SF_inj, H | right; eauto].
Qed.

(** Sums and differences of numbers that [===] equates are again such. *)
Lemma same_number_add (a a' b b' : float) :
  same_number a a' -> same_number b b' -> same_number (a + b) (a' + b').
Proof.
  rewrite !same_number_spec, !add_spec. unfold SF64add.
  intros [-> | (sa & sa' & -> & ->)] [-> | (sb & sb' & -> & ->)].
  - left; reflexivity.
  - destruct (Prim2SF a') as [[|]|[|]| |[|] m e], sb, sb'; cbn; eauto.
  - destruct (Prim2SF b') as [[|]|[|]| |[|] m e], sa, sa'; cbn; eauto.
  - destruct sa, sa', sb, sb'; cbn; eauto.
Qed.

Lemma same_number_sub (a a' b b' : float) :
  same_number a a' -> same_number b b' -> same_number (a - b) (a' - b').
Proof.
  rewrite !same_number_spec, !sub_spec. unfold SF64sub.
  intros [-> | (sa & sa' & -> & ->)] [-> | (sb & sb' & -> & ->)].
  - left; reflexivity.
  - destruct (Prim2SF a') as [[|]|[|]| |[|] m e], sb, sb'; cbn; eauto.
  - destruct (Prim2SF b') as [[|]|[|]| |[|] m e], sa, sa'; cbn; eauto.
  - destruct sa, sa', sb, sb'; cbn; eauto.
Qed.

End Binary64.

(** ** The resolver *)

Section Steps.
Variables (d : report_data) (key year : string).







End Steps.









(** C9.  For a key without a derivation rule and without a flat entry, a
    value stored in the nested table that reads as false comes back as
    [null]; so a stored 0 at the normalized year resolves to [null], as a
    missing value does. *)
Theorem getKPIValue_stored_zero_is_null
    (d : report_data) (key token dbKey : string) (years : object (option float))
    (c : option float) :
  get_own (computedRatios d) (key ++ "_" ++ token) = None ->
  derivation_rule key = None ->
  get_own kpiNameMappings key = Some dbKey ->
  get_own (extractedKPIs d) dbKey = Some (ETable years) ->
  get_own years (normalizeYear token) = Some c ->
  c = Some 0%float \/ truthy (of_leaf c) = false ->
  getKPIValue d key token = inr Null.
Proof.
  intros F R K T Y Z.
  rewrite getKPIValue_returns,
    (resolve_without_flat _ _ _ (registered_flat_undefined _ _ _ _ K F)), R.
  unfold nested_lookup. rewrite (dbKey_of_registered _ _ K), T, Y.
  destruct Z as [-> | Z]; [reflexivity|].
  destruct c as [x|]; [|reflexivity]. cbn [of_leaf] in Z. rewrite Z. reflexivity.
Qed.

Lemma getKPIValue_stored_zero_is_null_witness :
  getKPIValue zero_equity "capitaux_propres" "n" = inr Null.
Proof.
  apply (getKPIValue_stored_zero_is_null zero_equity "capitaux_propres" "n"
           "Capitaux propres" [ ("N", Some 0%float); ("2021", Some 40%float) ]
           (Some 0%float));
    try reflexivity.
  left. reflexivity.
Defined.

(** ** Year tokens *)

Lemma normalizeYear_unmapped (token : string) :
  ~ In token mapped_tokens -> inherited token = false -> normalizeYear token = token.
Proof.
  intros H I. unfold normalizeYear, yearMappings. cbn [get_own].
  repeat match goal with
         | |- context [String.eqb ?a token] =>
             destruct (String.eqb_spec a token) as [E|_];
             [exfalso; apply H; rewrite <- E; cbn; tauto|]
         end.
  rewrite I. reflexivity.
Qed.





(** ** Derivation rules *)

Section Dependents.
Variables (d : report_data) (label year : string).

Lemma dependent_or_zero_kept (x : float) :
  stored d label year = Some x -> kept_by_or_zero x ->
  dependent_or_zero d label year = x.
Proof.
  intros S K. unfold dependent_or_zero. rewrite S.
  destruct K as [-> | K]; [reflexivity | rewrite K; reflexivity].
Qed.

Lemma dependent_or_zero_same (x : float) :
  stored d label year = Some x -> PrimFloat.is_nan x = false ->
  same_number (dependent_or_zero d label year) x.
Proof.
  intros S N. unfold dependent_or_zero, truthy. rewrite S, N, orb_false_r.
  destruct (PrimFloat.eqb x 0) eqn:E; [right; split; [reflexivity | exact E] | left; reflexivity].
Qed.

Lemma dependent_or_zero_missing :
  stored d label year = None -> dependent_or_zero d label year = 0%float.
Proof. intros S. unfold dependent_or_zero. rewrite S. reflexivity. Qed.

End Dependents.

(** C7.  At a year where the dependents are stored, the derived EBITDA is
    operating result plus operating allowances minus operating reversals,
    and the derived BFR is current assets minus current liabilities: the
    same number for all stored numbers, and the identical binary64 value
    when none of them is the negative zero.  500, 100 and 50 give 550, and
    800 against 300 gives 500. *)
Theorem derived_ebitda_and_bfr (d : report_data) (year : string) :
  (forall re dot rep,
      stored d "Résultat d'exploitation" year = Some re ->
      stored d "Dotations d'exploitation" year = Some dot ->
      stored d "Reprises d'exploitation; transferts de charges" year = Some rep ->
      PrimFloat.is_nan re = false -> PrimFloat.is_nan dot = false ->
      PrimFloat.is_nan rep = false ->
      exists ebitda,
        calculateEBITDA d year = inr (Num ebitda)
        /\ same_number ebitda (re + dot - rep)
        /\ (kept_by_or_zero re -> kept_by_or_zero dot -> kept_by_or_zero rep ->
            ebitda = (re + dot - rep)%float))
  /\ (forall actif passif,
        stored d "Actif circulant" year = Some actif ->
        stored d "Passif circulant" year = Some passif ->
        PrimFloat.is_nan actif = false -> PrimFloat.is_nan passif = false ->
        exists bfr,
          calculateBFR d year = inr (Num bfr)
          /\ same_number bfr (actif - passif)
          /\ (kept_by_or_zero actif -> kept_by_or_zero passif ->
              bfr = (actif - passif)%float))
  /\ (stored d "Résultat d'exploitation" year = Some 500%float ->
      stored d "Dotations d'exploitation" year = Some 100%float ->
      stored d "Reprises d'exploitation; transferts de charges" year = Some 50%float ->
      calculateEBITDA d year = inr (Num 550))
  /\ (stored d "Actif circulant" year = Some 800%float ->
      stored d "Passif circulant" year = Some 300%float ->
      calculateBFR d year = inr (Num 500)).
Proof.
  split_all.
  - intros re dot rep S1 S2 S3 N1 N2 N3.
    rewrite calculateEBITDA_returns. eexists. split; [reflexivity|].
    unfold derived_ebitda. split.
    + apply same_number_sub; [apply same_number_add|];
        apply dependent_or_zero_same; assumption.
    + intros K1 K2 K3.
      rewrite (dependent_or_zero_kept _ _ _ _ S1 K1),
        (dependent_or_zero_kept _ _ _ _ S2 K2), (dependent_or_zero_kept _ _ _ _ S3 K3).
      reflexivity.
  - intros actif passif S1 S2 N1 N2.
    rewrite calculateBFR_returns. eexists. split; [reflexivity|].
    unfold derived_bfr. split.
    + apply same_number_sub; apply dependent_or_zero_same; assumption.
    + intros K1 K2.
      rewrite (dependent_or_zero_kept _ _ _ _ S1 K1), (dependent_or_zero_kept _ _ _ _ S2 K2).
      reflexivity.
  - intros S1 S2 S3.
    rewrite calculateEBITDA_returns. unfold derived_ebitda, dependent_or_zero.
    rewrite S1, S2, S3. reflexivity.
  - intros S1 S2.
    rewrite calculateBFR_returns. unfold derived_bfr, dependent_or_zero.
    rewrite S1, S2. reflexivity.
Qed.

Lemma derived_ebitda_and_bfr_witness :
  (exists ebitda,
      calculateEBITDA operating_figures "N" = inr (Num ebitda)
      /\ same_number ebitda (500 + 100 - 50)
      /\ ebitda = (500 + 100 - 50)%float)
  /\ (exists bfr,
        calculateBFR operating_figures "N" = inr (Num bfr)
        /\ same_number bfr (800 - 300)
        /\ bfr = (800 - 300)%float)
  /\ calculateEBITDA operating_figures "N" = inr (Num 550)
  /\ calculateBFR operating_figures "N" = inr (Num 500).
Proof.
  destruct (derived_ebitda_and_bfr operating_figures "N")
    as (Ebitda & Bfr & Ebitda550 & Bfr500).
  split_all.
  - destruct (Ebitda 500%float 100%float 50%float
                eq_refl eq_refl eq_refl eq_refl eq_refl eq_refl)
      as (ebitda & E & Same & Exact).
    exists ebitda. split_all; [exact E | exact Same |].
    apply Exact; right; reflexivity.
  - destruct (Bfr 800%float 300%float eq_refl eq_refl eq_refl eq_refl)
      as (bfr & E & Same & Exact).
    exists bfr. split_all; [exact E | exact Same |].
    apply Exact; right; reflexivity.
  - apply Ebitda550; reflexivity.
  - apply Bfr500; reflexivity.
Defined.

(** C4, as the script has it.  A derivation rule counts a missing dependent
    as 0 and its result is always a number: when the flat entry is absent,
    [ebitda] and [bfr] resolve to the derived number, which is 0, and not
    [null], at a year where no dependent has a value. *)
Theorem derivation_counts_missing_as_zero (d : report_data) (token : string) :
  let year := normalizeYear token in
  (forall label, stored d label year = None -> dependent d label year = inr (Num 0))
  /\ (get_own (computedRatios d) ("ebitda_" ++ token) = None ->
      getKPIValue d "ebitda" token = inr (Num (derived_ebitda d year))
      /\ (stored d "Résultat d'exploitation" year = None ->
          stored d "Dotations d'exploitation" year = None ->
          stored d "Reprises d'exploitation; transferts de charges" year = None ->
          getKPIValue d "ebitda" token = inr (Num 0)))
  /\ (get_own (computedRatios d) ("bfr_" ++ token) = None ->
      getKPIValue d "bfr" token = inr (Num (derived_bfr d year))
      /\ (stored d "Actif circulant" year = None ->
          stored d "Passif circulant" year = None ->
          getKPIValue d "bfr" token = inr (Num 0))).
Proof.
  intros year. split_all.
  - intros label S. rewrite dependent_returns, (dependent_or_zero_missing _ _ _ S).
    reflexivity.
  - intros F.
    assert (D : flat_entry d ("ebitda" ++ "_" ++ token) = Undefined)
      by (apply flat_entry_plain; [exact F | reflexivity ..]).
    rewrite getKPIValue_returns, (resolve_without_flat _ _ _ D).
    split; [reflexivity|].
    intros S1 S2 S3. cbn [derivation_rule String.eqb Ascii.eqb Bool.eqb].
    unfold derived_ebitda. fold year.
    rewrite !dependent_or_zero_missing by assumption. reflexivity.
  - intros F.
    assert (D : flat_entry d ("bfr" ++ "_" ++ token) = Undefined)
      by (apply flat_entry_plain; [exact F | reflexivity ..]).
    rewrite getKPIValue_returns, (resolve_without_flat _ _ _ D).
    split; [reflexivity|].
    intros S1 S2. cbn [derivation_rule String.eqb Ascii.eqb Bool.eqb].
    unfold derived_bfr. fold year.
    rewrite !dependent_or_zero_missing by assumption. reflexivity.
Qed.

Lemma derivation_counts_missing_as_zero_witness :
  dependent turnover_only "Actif circulant" "N" = inr (Num 0)
  /\ getKPIValue turnover_only "ebitda" "n" = inr (Num 0)
  /\ getKPIValue turnover_only "bfr" "n" = inr (Num 0).
Proof.
  destruct (derivation_counts_missing_as_zero turnover_only "n")
    as (Missing & Ebitda & Bfr).
  split_all.
  - apply Missing. reflexivity.
  - apply Ebitda; reflexivity.
  - apply Bfr; reflexivity.
Defined.

(** C4, as the specification words it, fails: with a payload that holds
    none of the three dependents, [ebitda] resolves to the number 0, not to
    [null]. *)
Lemma ebitda_without_dependents_not_null :
  stored turnover_only "Résultat d'exploitation" "N" = None
  /\ stored turnover_only "Dotations d'exploitation" "N" = None
  /\ stored turnover_only "Reprises d'exploitation; transferts de charges" "N" = None
  /\ getKPIValue turnover_only "ebitda" "n" = inr (Num 0)
  /\ getKPIValue turnover_only "ebitda" "n" <> inr Null.
Proof.
  repeat split. discriminate.
Qed.

(** ** Growth *)

Lemma growth_test (current previous : value) :
  (not_nullish current && not_nullish previous
   && negb (isNaN current) && negb (isNaN previous)
   && strict_not_zero previous = true)
  <-> growth_defined current previous.
Proof.
  unfold growth_defined. split.
  - intros H. repeat (apply andb_prop in H; destruct H as [H ?]).
    destruct current as [| |c|name]; try discriminate.
    destruct previous as [| |p|name]; try discriminate.
    exists c, p. unfold isNaN, toNumber in *.
    repeat split; apply negb_true_iff; assumption.
  - intros (c & p & -> & -> & Nc & Np & Zp).
    unfold isNaN, toNumber, not_nullish, strict_not_zero.
    rewrite Nc, Np, Zp. reflexivity.
Qed.

Lemma cagr_returns (d : report_data) (key : string) :
  cagr d key =
  inr (let current := resolve d key "n" in
       let previous := resolve d key "n1" in
       if not_nullish current && not_nullish previous
          && negb (isNaN current) && negb (isNaN previous)
          && strict_not_zero previous
       then Num ((toNumber current / toNumber previous - 1) * 100)%float
       else Null).
Proof.
  unfold cagr. rewrite !getKPIValue_returns. cbn [bind Monad_either ret].
  destruct (_ && _); reflexivity.
Qed.

(** C3.  The growth of a key is ((current / previous) - 1) * 100 exactly
    when both resolved values are numbers other than NaN and the previous
    one is not zero; otherwise it is [null], which the cell shows as the
    dash and never as 0.  1100 after 1000 shows 10,0 as a rise, 900 after
    1000 shows -10,0 as a fall, and a previous value of 0 gives [null]. *)
Theorem cagr_formula (d : report_data) (key : string) (current previous : value) :
  getKPIValue d key "n" = inr current ->
  getKPIValue d key "n1" = inr previous ->
  (growth_defined current previous ->
     cagr d key = inr (Num ((toNumber current / toNumber previous - 1) * 100)%float))
  /\ (~ growth_defined current previous ->
        cagr d key = inr Null /\ computeAndDisplayCAGR d key = inr NoData)
  /\ (current = Num 1100 -> previous = Num 1000 ->
        cagr d key = inr (Num ((1100 / 1000 - 1) * 100)%float)
        /\ toFixed 1 ((1100 / 1000 - 1) * 100)%float = Some "10.0"
        /\ computeAndDisplayCAGR d key = inr (Change true (Some "10,0"))
        /\ ProfileView.renderCAGR current previous = Change true (Some "10,0"))
  /\ (current = Num 900 -> previous = Num 1000 ->
        cagr d key = inr (Num ((900 / 1000 - 1) * 100)%float)
        /\ toFixed 1 ((900 / 1000 - 1) * 100)%float = Some "-10.0"
        /\ computeAndDisplayCAGR d key = inr (Change false (Some "-10,0"))
        /\ ProfileView.renderCAGR current previous = Change false (Some "-10,0"))
  /\ (previous = Num 0 ->
        cagr d key = inr Null
        /\ computeAndDisplayCAGR d key = inr NoData
        /\ ProfileView.renderCAGR current previous = NoData).
Proof.
  intros Hc Hp.
  rewrite getKPIValue_returns in Hc, Hp.
  injection Hc as Hc. injection Hp as Hp.
  unfold computeAndDisplayCAGR. rewrite cagr_returns. cbn zeta. rewrite Hc, Hp.
  clear Hc Hp.
  split; [|split; [|split; [|split]]].
  - intros G. apply growth_test in G. rewrite G. reflexivity.
  - intros G.
    match goal with
    | |- context [if ?b then _ else _] => destruct b eqn:E
    end.
    + exfalso. apply G. apply growth_test. exact E.
    + split; reflexivity.
  - intros -> ->. split_all; vm_compute; reflexivity.
  - intros -> ->. split_all; vm_compute; reflexivity.
  - intros ->.
    assert (E : not_nullish current && not_nullish (Num 0)
                && negb (isNaN current) && negb (isNaN (Num 0))
                && strict_not_zero (Num 0) = false).
    { change (strict_not_zero (Num 0)) with false. apply andb_false_r. }
    unfold ProfileView.renderCAGR. rewrite E. split_all; reflexivity.
Qed.

Lemma cagr_formula_witness :
  cagr two_years "chiffre_d_affaires" = inr (Num ((1100 / 1000 - 1) * 100)%float)
  /\ cagr empty_data "chiffre_d_affaires" = inr Null
  /\ computeAndDisplayCAGR two_years "chiffre_d_affaires" = inr (Change true (Some "10,0"))
  /\ computeAndDisplayCAGR two_years "resultat_net" = inr (Change false (Some "-10,0"))
  /\ computeAndDisplayCAGR two_years "dette_nette" = inr NoData.
Proof.
  split_all.
  - destruct (cagr_formula two_years "chiffre_d_affaires" (Num 1100) (Num 1000)
                eq_refl eq_refl) as (Defined_ & _).
    apply Defined_. exists 1100%float, 1000%float. split_all; reflexivity.
  - destruct (cagr_formula empty_data "chiffre_d_affaires" Null Null
                eq_refl eq_refl) as (_ & Undefined_ & _).
    apply Undefined_. intros (c & p & E & _). discriminate E.
  - destruct (cagr_formula two_years "chiffre_d_affaires" (Num 1100) (Num 1000)
                eq_refl eq_refl) as (_ & _ & Rise & _).
    apply Rise; reflexivity.
  - destruct (cagr_formula two_years "resultat_net" (Num 900) (Num 1000)
                eq_refl eq_refl) as (_ & _ & _ & Fall & _).
    apply Fall; reflexivity.
  - destruct (cagr_formula two_years "dette_nette" (Num 70) (Num 0)
                eq_refl eq_refl) as (_ & _ & _ & _ & Zero).
    apply Zero; reflexivity.
Defined.


(** ** Ratios *)

Lemma guarded_zero (denominator quotient : float) :
  PrimFloat.leb denominator 0 = true -> guarded denominator quotient = 0%float.
Proof.
  intros H. unfold guarded. rewrite (leb_zero_not_ltb _ H). reflexivity.
Qed.

Lemma resolved_or_zero_returns (d : report_data) (key token : string) :
  resolved_or_zero d key token = inr (number_or_zero (resolve d key token)).
Proof.
  unfold resolved_or_zero. rewrite getKPIValue_returns. reflexivity.
Qed.

Lemma calculateMissingRatios_returns (d : report_data) :
  calculateMissingRatios d =
  inr (let chiffreAffaires := number_or_zero (resolve d "chiffre_d_affaires" "n") in
       let resultatNet := number_or_zero (resolve d "resultat_net" "n") in
       let resultatExploitation := number_or_zero (resolve d "resultat_d_exploitation" "n") in
       let capitauxPropres := number_or_zero (resolve d "capitaux_propres" "n") in
       let detteNette := number_or_zero (resolve d "dette_nette" "n") in
       let ebitda := number_or_zero (Num (derived_ebitda d "N")) in
       let moyen :=
         ((number_or_zero (resolve d "actif_circulant_total" "n")
           + number_or_zero (resolve d "actif_circulant_total" "n1")) / 2)%float in
       [ ("marge_ebitda", guarded chiffreAffaires (ebitda / chiffreAffaires * 100)%float);
         ("marge_exploitation",
           guarded chiffreAffaires (resultatExploitation / chiffreAffaires * 100)%float);
         ("marge_nette", guarded chiffreAffaires (resultatNet / chiffreAffaires * 100)%float);
         ("roe", guarded capitauxPropres (resultatNet / capitauxPropres * 100)%float);
         ("roce", guarded capitauxPropres (resultatExploitation / capitauxPropres * 100)%float);
         ("gearing", guarded capitauxPropres (detteNette / capitauxPropres * 100)%float);
         ("rotation_actifs", guarded moyen (chiffreAffaires / moyen)%float) ]).
Proof.
  unfold calculateMissingRatios.
  rewrite !resolved_or_zero_returns, calculateEBITDA_returns. reflexivity.
Qed.

(** C5.  A denominator at or below zero gives the number 0 for the
    percentage ratios: the three margins when the turnover is at or below
    zero, [roe], [roce] and [gearing] when equity is, [rotation_actifs]
    when the two-year average of total current assets is.  The liquidity
    ratio has no value (the cell shows N/A) when current liabilities
    resolve to [null] or to 0. *)
Theorem ratios_zero_liquidity_not_available
    (d : report_data) (ca cp total_n total_n1 passif : value) :
  getKPIValue d "chiffre_d_affaires" "n" = inr ca ->
  getKPIValue d "capitaux_propres" "n" = inr cp ->
  getKPIValue d "actif_circulant_total" "n" = inr total_n ->
  getKPIValue d "actif_circulant_total" "n1" = inr total_n1 ->
  getKPIValue d "passif_circulant" "n" = inr passif ->
  exists ratios,
    calculateMissingRatios d = inr ratios
    /\ (PrimFloat.leb (number_or_zero ca) 0 = true ->
        get_own ratios "marge_ebitda" = Some 0%float
        /\ get_own ratios "marge_exploitation" = Some 0%float
        /\ get_own ratios "marge_nette" = Some 0%float)
    /\ (PrimFloat.leb (number_or_zero cp) 0 = true ->
        get_own ratios "roe" = Some 0%float
        /\ get_own ratios "roce" = Some 0%float
        /\ get_own ratios "gearing" = Some 0%float)
    /\ (PrimFloat.leb ((number_or_zero total_n + number_or_zero total_n1) / 2) 0 = true ->
        get_own ratios "rotation_actifs" = Some 0%float)
    /\ (passif = Null \/ (exists z, passif = Num z /\ PrimFloat.eqb z 0 = true) ->
        ratioLiquiditeGenerale d = inr NotAvailable).
Proof.
  intros Hca Hcp Hn Hn1 Hp.
  rewrite getKPIValue_returns in Hca, Hcp, Hn, Hn1.
  injection Hca as Hca. injection Hcp as Hcp. injection Hn as Hn. injection Hn1 as Hn1.
  rewrite calculateMissingRatios_returns. cbn zeta. rewrite Hca, Hcp, Hn, Hn1.
  eexists. split; [reflexivity|]. cbn [get_own String.eqb Ascii.eqb Bool.eqb].
  split; [|split; [|split]].
  - intros H. rewrite !(guarded_zero _ _ H). split_all; reflexivity.
  - intros H. rewrite !(guarded_zero _ _ H). split_all; reflexivity.
  - intros H. rewrite (guarded_zero _ _ H). reflexivity.
  - intros H. unfold ratioLiquiditeGenerale. rewrite Hp, getKPIValue_returns.
    cbn [bind Monad_either ret].
    destruct H as [-> | (z & -> & Z)].
    + cbn [strict_not_null]. rewrite andb_false_r. reflexivity.
    + cbn [strict_not_zero]. rewrite Z, andb_false_r. reflexivity.
Qed.

Lemma ratios_zero_liquidity_not_available_witness :
  exists ratios,
    calculateMissingRatios negative_equity = inr ratios
    /\ get_own ratios "marge_nette" = Some 0%float
    /\ get_own ratios "roe" = Some 0%float
    /\ get_own ratios "roce" = Some 0%float
    /\ get_own ratios "rotation_actifs" = Some 0%float
    /\ ratioLiquiditeGenerale negative_equity = inr NotAvailable.
Proof.
  destruct (ratios_zero_liquidity_not_available negative_equity
              Null (Num (-50)) Null Null (Num 0)
              eq_refl eq_refl eq_refl eq_refl eq_refl)
    as (ratios & E & Hca & Hcp & Hrot & Hliq).
  exists ratios. split; [exact E|].
  split; [apply Hca; reflexivity|].
  split; [apply Hcp; reflexivity|].
  split; [apply Hcp; reflexivity|].
  split; [apply Hrot; reflexivity|].
  apply Hliq. right. exists 0%float. split; reflexivity.
Defined.

(** ** Fiscal years *)

Lemma includes_dash_cons (c : ascii) (s : string) :
  includes (String c s) "-" = Ascii.eqb c "-" || includes s "-".
Proof.
  cbn [includes String.prefix].
  destruct (ascii_dec "-" c) as [<-|N].
  - destruct s; reflexivity.
  - rewrite (proj2 (Ascii.eqb_neq c "-")) by congruence. reflexivity.
Qed.

Lemma includes_dash_range (ystart yend : string) :
  includes (ystart ++ "-" ++ yend) "-" = true.
Proof.
  induction ystart as [|c s IH].
  - change ("" ++ "-" ++ yend) with (String "-" yend).
    rewrite includes_dash_cons. reflexivity.
  - change (String c s ++ "-" ++ yend) with (String c (s ++ "-" ++ yend)).
    rewrite includes_dash_cons, IH. apply orb_true_r.
Qed.

Lemma split_without_dash (s : string) :
  includes s "-" = false -> split "-" s = [s].
Proof.
  induction s as [|c s IH]; [reflexivity|].
  rewrite includes_dash_cons. intros H. apply orb_false_elim in H. destruct H as [C S].
  cbn [split]. rewrite C, (IH S). reflexivity.
Qed.

Lemma split_range (ystart yend : string) :
  includes ystart "-" = false -> includes yend "-" = false ->
  split "-" (ystart ++ "-" ++ yend) = [ystart; yend].
Proof.
  intros Hs He. induction ystart as [|c s IH].
  - change ("" ++ "-" ++ yend) with (String "-" yend).
    cbn [split]. rewrite Ascii.eqb_refl, (split_without_dash _ He). reflexivity.
  - rewrite includes_dash_cons in Hs. apply orb_false_elim in Hs. destruct Hs as [C S].
    change (String c s ++ "-" ++ yend) with (String c (s ++ "-" ++ yend)).
    cbn [split]. rewrite C, (IH S). reflexivity.
Qed.

Lemma truthy_range (ystart yend : string) : truthy_string (ystart ++ "-" ++ yend) = true.
Proof. destruct ystart; reflexivity. Qed.

(** Reading back a printed natural number. *)
Lemma read_digits_acc (u : Decimal.uint) (p : positive) :
  read_digits 10 (NilEmpty.string_of_uint u) true (Zpos p)
  = Some (Zpos (Pos.of_uint_acc u p)).
Proof.
  revert p. induction u as [|u IH|u IH|u IH|u IH|u IH|u IH|u IH|u IH|u IH|u IH];
    intros p; [reflexivity|..];
    cbn [NilEmpty.string_of_uint read_digits Pos.of_uint_acc];
    read_digit; rewrite <- IH; f_equal; lia.
Qed.

Lemma read_digits_seen (u : Decimal.uint) :
  read_digits 10 (NilEmpty.string_of_uint u) true 0 = Some (Z.of_N (Pos.of_uint u)).
Proof.
  induction u as [|u IH|u IH|u IH|u IH|u IH|u IH|u IH|u IH|u IH|u IH];
    [reflexivity | exact IH | ..];
    cbn [NilEmpty.string_of_uint read_digits Pos.of_uint];
    read_digit; apply read_digits_acc.
Qed.

Lemma read_digits_printed (u : Decimal.uint) :
  u <> Decimal.Nil ->
  read_digits 10 (NilEmpty.string_of_uint u) false 0 = Some (Z.of_N (Pos.of_uint u)).
Proof.
  intros N. rewrite <- read_digits_seen.
  destruct u; [contradiction | ..]; reflexivity.
Qed.

(** No white space is dropped before a character of ASCII that is not
    white space. *)
Lemma trim_start_kept (c : ascii) (rest : string) :
  is_white_space c = false -> (nat_of_ascii c <? 128)%nat = true ->
  trim_start (String c rest) = String c rest.
Proof.
  intros W A. apply Nat.ltb_lt in A. cbn [trim_start]. rewrite W.
  destruct rest as [|c2 rest2]; [reflexivity|].
  assert (W2 : is_white_space2 c c2 = false).
  { unfold is_white_space2. destruct (Nat.eqb_spec (nat_of_ascii c) 194); [lia | reflexivity]. }
  rewrite W2. destruct rest2 as [|c3 rest3]; [reflexivity|].
  assert (W3 : is_white_space3 c c2 c3 = false).
  { unfold is_white_space3.
    destruct (Nat.eqb_spec (nat_of_ascii c) 225); [lia|].
    destruct (Nat.eqb_spec (nat_of_ascii c) 226); [lia|].
    destruct (Nat.eqb_spec (nat_of_ascii c) 227); [lia|].
    destruct (Nat.eqb_spec (nat_of_ascii c) 239); [lia | reflexivity]. }
  rewrite W3. reflexivity.
Qed.

Lemma trim_start_printed (u : Decimal.uint) :
  trim_start (NilEmpty.string_of_uint u) = NilEmpty.string_of_uint u.
Proof.
  destruct u; [reflexivity | ..]; cbn [NilEmpty.string_of_uint];
    apply trim_start_kept; reflexivity.
Qed.

Lemma parseInt_printed (u : Decimal.uint) :
  u <> Decimal.Nil ->
  parseInt (NilEmpty.string_of_uint u) = Some (Z.of_N (Pos.of_uint u)).
Proof.
  intros N. rewrite <- (read_digits_printed u N).
  unfold parseInt. rewrite trim_start_printed.
  destruct u as [|u|u|u|u|u|u|u|u|u|u]; [contradiction | | ..];
    try (simpl; destruct (read_digits _ _ _ _); reflexivity).
  destruct u; simpl; try destruct (read_digits _ _ _ _); reflexivity.
Qed.

Lemma includes_dash_printed (u : Decimal.uint) :
  includes (NilEmpty.string_of_uint u) "-" = false.
Proof.
  induction u; [reflexivity | ..];
    cbn [NilEmpty.string_of_uint]; rewrite includes_dash_cons, IHu; reflexivity.
Qed.

Lemma string_of_integer_pos (p : positive) :
  string_of_integer (Zpos p) = NilEmpty.string_of_uint (Pos.to_uint p).
Proof.
  unfold string_of_integer. cbn [Z.to_int NilZero.string_of_int NilZero.string_of_uint].
  pose proof (Unsigned.to_uint_nonnil p) as N.
  destruct (Pos.to_uint p); [contradiction | reflexivity ..].
Qed.

(** [parseInt] reads back the natural number [String] printed. *)
Lemma parseInt_string_of_integer (n : Z) :
  (0 <= n)%Z -> parseInt (string_of_integer n) = Some n.
Proof.
  intros H. destruct n as [|p|p]; [reflexivity | | lia].
  rewrite string_of_integer_pos, parseInt_printed by apply Unsigned.to_uint_nonnil.
  rewrite Unsigned.of_to. reflexivity.
Qed.

Lemma year_numeral_plain (n : Z) :
  (0 <= n)%Z ->
  truthy_string (string_of_integer n) = true
  /\ includes (string_of_integer n) "-" = false.
Proof.
  intros H. destruct n as [|p|p]; [split; reflexivity | | lia].
  rewrite string_of_integer_pos. split; [|apply includes_dash_printed].
  pose proof (Unsigned.to_uint_nonnil p) as N.
  destruct (Pos.to_uint p); [contradiction | reflexivity ..].
Qed.

(** C6.  Under a range ["Ystart-Yend"] the current year (token [n]) is
    [Yend] and the previous year (token [n1]) is [Ystart], so ["2022-2023"]
    gives 2023 and 2022.  [getAvailableYears] returns the list of
    [_metadata.available_years] when there is one; else the two years of the
    fiscal years, [Y-1] and [Y] for a single year [Y] (a numeral below
    2^53, where numbers hold integers exactly), [Ystart] and [Yend] for a
    range; else [N] and [N-1]. *)
Theorem fiscal_years_labels (d : report_data) :
  (forall ystart yend,
      fiscalYears d = Some (ystart ++ "-" ++ yend) ->
      includes ystart "-" = false -> includes yend "-" = false ->
      truthy_string yend = true ->
      replaceYearPlaceholders d = Some (yend, ystart))
  /\ (fiscalYears d = Some "2022-2023" ->
      replaceYearPlaceholders d = Some ("2023", "2022"))
  /\ (forall years, computedRatios_available_years d = Some years ->
        getAvailableYears d = years)
  /\ (forall years, computedRatios_available_years d = None ->
        extractedKPIs_available_years d = Some years ->
        getAvailableYears d = years)
  /\ (forall n, computedRatios_available_years d = None ->
        extractedKPIs_available_years d = None ->
        (0 <= n < 2 ^ 53)%Z ->
        fiscalYears d = Some (string_of_integer n) ->
        getAvailableYears d = [string_of_integer (n - 1); string_of_integer n])
  /\ (forall ystart yend, computedRatios_available_years d = None ->
        extractedKPIs_available_years d = None ->
        fiscalYears d = Some (ystart ++ "-" ++ yend) ->
        includes ystart "-" = false -> includes yend "-" = false ->
        truthy_string yend = true ->
        getAvailableYears d = [ystart; yend])
  /\ (computedRatios_available_years d = None ->
      extractedKPIs_available_years d = None ->
      fiscalYears d = None ->
      getAvailableYears d = ["N"; "N-1"]).
Proof.
  assert (R : forall ystart yend,
             includes ystart "-" = false -> includes yend "-" = false ->
             truthy_string yend = true ->
             range_current (ystart ++ "-" ++ yend) = yend
             /\ range_previous (ystart ++ "-" ++ yend) = ystart).
  { intros ystart yend Hs He T. unfold range_current, range_previous.
    rewrite (split_range _ _ Hs He), T. split; reflexivity. }
  split; [|split; [|split; [|split; [|split; [|split]]]]].
  - intros ystart yend F Hs He T. unfold replaceYearPlaceholders.
    rewrite F, truthy_range, includes_dash_range.
    destruct (R _ _ Hs He T) as [-> ->]. reflexivity.
  - intros F. unfold replaceYearPlaceholders. rewrite F. reflexivity.
  - intros years C. unfold getAvailableYears. rewrite C. reflexivity.
  - intros years C E. unfold getAvailableYears. rewrite C, E. reflexivity.
  - intros n C E [H _] F. unfold getAvailableYears. rewrite C, E, F.
    destruct (year_numeral_plain n H) as [-> ->].
    unfold string_of_pred_parseInt. rewrite (parseInt_string_of_integer n H). reflexivity.
  - intros ystart yend C E F Hs He T. unfold getAvailableYears.
    rewrite C, E, F, truthy_range, includes_dash_range.
    destruct (R _ _ Hs He T) as [-> ->]. reflexivity.
  - intros C E F. unfold getAvailableYears. rewrite C, E, F. reflexivity.
Qed.

Lemma fiscal_years_labels_witness :
  replaceYearPlaceholders two_years = Some ("2023", "2022")
  /\ getAvailableYears with_metadata = ["N-2"; "N-1"; "N"]
  /\ getAvailableYears negative_equity = ["2022"; "2023"]
  /\ getAvailableYears two_years = ["2022"; "2023"]
  /\ getAvailableYears empty_data = ["N"; "N-1"].
Proof.
  split_all.
  - destruct (fiscal_years_labels two_years) as (Range & _).
    apply (Range "2022" "2023"); reflexivity.
  - destruct (fiscal_years_labels with_metadata) as (_ & _ & Listed & _).
    apply Listed. reflexivity.
  - destruct (fiscal_years_labels negative_equity) as (_ & _ & _ & _ & Single & _).
    apply (Single 2023%Z); try reflexivity. lia.
  - destruct (fiscal_years_labels two_years) as (_ & _ & _ & _ & _ & Range & _).
    apply (Range "2022" "2023"); reflexivity.
  - destruct (fiscal_years_labels empty_data) as (_ & _ & _ & _ & _ & _ & Default).
    apply Default; reflexivity.
Defined.

(** ** Company names across documents *)

Lemma verifyProfile_mismatch (results : list NewProfile.individual_result)
    (r : NewProfile.comparison_result) :
  NewProfile.verifyProfile (Some results) = Some r ->
  NewProfile.matches r = false
  /\ NewProfile.requires_confirmation r = true
  /\ NewProfile.document_companies r
     = NewProfile.spread_set (filter NewProfile.named (map NewProfile.company_name results))
  /\ (2 <= List.length (NewProfile.document_companies r))%nat.
Proof.
  unfold NewProfile.verifyProfile.
  destruct (1 <? List.length results)%nat; [|discriminate].
  destruct (1 <? List.length _)%nat eqn:L; [|discriminate].
  intros H. injection H as <-. cbn. apply Nat.ltb_lt in L. repeat split. exact L.
Qed.

(** C1, on the script.  [verifyProfile] compares the company names as they
    are written: two documents named ["Acme SA"] and ["ACME SA"] open the
    mismatch modal with [requires_confirmation] set and both spellings
    listed; ["Acme SA"], ["ACME SA"] and ["Other Co"] are listed as three
    names; a name with a trailing blank differs from the same name without
    it; only names that are identical character for character pass without
    a modal. *)
Theorem verifyProfile_compares_names_exactly :
  NewProfile.verifyProfile (Some [ named_result "Acme SA"; named_result "ACME SA" ])
  = Some {| NewProfile.matches := false;
            NewProfile.reason := "Different company names detected in uploaded documents";
            NewProfile.requires_confirmation := true;
            NewProfile.recommendation :=
              "Documents contain different company names: Acme SA, ACME SA. Please confirm if you want to proceed.";
            NewProfile.document_companies := [ Some "Acme SA"; Some "ACME SA" ] |}
  /\ option_map NewProfile.document_companies
       (NewProfile.verifyProfile
          (Some [ named_result "Acme SA"; named_result "ACME SA"; named_result "Other Co" ]))
     = Some [ Some "Acme SA"; Some "ACME SA"; Some "Other Co" ]
  /\ option_map NewProfile.document_companies
       (NewProfile.verifyProfile (Some [ named_result "Acme SA"; named_result "Acme SA " ]))
     = Some [ Some "Acme SA"; Some "Acme SA " ]
  /\ NewProfile.verifyProfile (Some [ named_result "Acme SA"; named_result "Acme SA" ]) = None
  /\ NewProfile.verifyProfile
       (Some [ named_result "Acme SA"; unnamed_result; named_result "   " ]) = None.
Proof. repeat split. Qed.

(** * Further properties of the report script *)

Import ReportPage.

(** ** Missing data *)

Lemma get_own_In {A : Type} (o : object A) (k : string) (a : A) :
  get_own o k = Some a -> In (k, a) o.
Proof.
  induction o as [|[k' a'] rest IH]; cbn [get_own]; [discriminate|].
  destruct (String.eqb_spec k' k) as [->|_].
  - intros H. injection H as ->. left. reflexivity.
  - intros H. right. exact (IH H).
Qed.

Lemma resolve_missing_year (d : report_data) (key token : string) :
  flat_entry d (key ++ "_" ++ token) = Undefined ->
  derivation_rule key = None ->
  (forall label years, In (label, ETable years) (extractedKPIs d) ->
                       get_own years (normalizeYear token) = None) ->
  resolve d key token = Null.
Proof.
  intros F R Missing. rewrite (resolve_without_flat _ _ _ F), R.
  assert (Fz : fuzzy_lookup d key (normalizeYear token) = None).
  { unfold fuzzy_lookup.
    destruct (find _ _) as [[label [|years]]|] eqn:E; try reflexivity.
    apply find_some in E. destruct E as [I _].
    rewrite (Missing _ _ I). reflexivity. }
  unfold nested_lookup.
  destruct (dbKey_of key) as [dbKey|]; [|rewrite Fz; reflexivity].
  destruct (get_own (extractedKPIs d) dbKey) as [[|years]|] eqn:T;
    try (rewrite Fz; reflexivity).
  rewrite (Missing _ _ (get_own_In _ _ _ T)). reflexivity.
Qed.

(** X1.  A key whose flat entry is undefined and which has no derivation
    rule resolves to [null] whenever no year table of the payload holds the
    normalized year: neither the label the key is read as nor any label of
    the fuzzy search can then supply a value. *)
Theorem getKPIValue_missing_year_is_null (d : report_data) (key token : string) :
  flat_entry d (key ++ "_" ++ token) = Undefined ->
  derivation_rule key = None ->
  skips_metadata key = true ->
  (forall label years, In (label, ETable years) (extractedKPIs d) ->
                       get_own years (normalizeYear token) = None) ->
  getKPIValue d key token = inr Null.
Proof.
  intros F R _ Missing. rewrite getKPIValue_returns.
  rewrite (resolve_missing_year d key token F R Missing). reflexivity.
Qed.

Lemma getKPIValue_missing_year_is_null_witness :
  getKPIValue turnover_only "chiffre_d_affaires" "n2" = inr Null
  /\ getKPIValue turnover_only "dette_nette" "2023" = inr Null.
Proof.
  split.
  - apply getKPIValue_missing_year_is_null; try reflexivity.
    intros label years [E | []]. injection E as _ <-. reflexivity.
  - apply getKPIValue_missing_year_is_null; try reflexivity.
    intros label years [E | []]. injection E as _ <-. reflexivity.
Defined.

(** ** Year columns *)

Lemma toLowerCase_printed (u : Decimal.uint) :
  toLowerCase (NilEmpty.string_of_uint u) = NilEmpty.string_of_uint u.
Proof.
  unfold toLowerCase.
  induction u; [reflexivity | ..];
    cbn [NilEmpty.string_of_uint lower_from]; cbn [negb andb];
    match goal with
    | |- String ?c (lower_from ?b _) = _ =>
        let c' := eval vm_compute in c in
        let b' := eval vm_compute in b in
        change c with c'; change b with b'
    end;
    rewrite IHu; reflexivity.
Qed.

Lemma replace_dash_printed (u : Decimal.uint) :
  replace_first "-" "" (NilEmpty.string_of_uint u) = NilEmpty.string_of_uint u.
Proof.
  induction u; [reflexivity | ..];
    cbn [NilEmpty.string_of_uint replace_first];
    match goal with
    | |- (if ?b then _ else _) = _ =>
        let b' := eval vm_compute in b in change b with b'
    end;
    cbv iota; rewrite IHu; reflexivity.
Qed.

Lemma printed_unmapped (u : Decimal.uint) :
  u <> Decimal.Nil -> ~ In (NilEmpty.string_of_uint u) mapped_tokens.
Proof.
  intros N. destruct u; [contradiction | ..]; cbn [NilEmpty.string_of_uint]; unmapped.
Qed.

Lemma printed_plain (u : Decimal.uint) :
  u <> Decimal.Nil -> inherited (NilEmpty.string_of_uint u) = false.
Proof.
  intros N. destruct u; [contradiction | ..]; reflexivity.
Qed.

Lemma printed_not_label (u : Decimal.uint) (label : string) :
  u <> Decimal.Nil -> In label relative_labels ->
  String.eqb (NilEmpty.string_of_uint u) label = false.
Proof.
  intros N I. apply String.eqb_neq. intros E. rewrite <- E in I. clear E.
  destruct u; [contradiction | ..]; cbn [NilEmpty.string_of_uint] in I;
    cbn in I; repeat destruct I as [I | I]; try discriminate I; contradiction I.
Qed.

Section Numerals.
Variable n : Z.
Hypothesis natural : (0 <= n)%Z.

Lemma numeral_printed :
  exists u, u <> Decimal.Nil /\ string_of_integer n = NilEmpty.string_of_uint u.
Proof.
  destruct n as [|p|p]; [exists (Decimal.D0 Decimal.Nil); split; [discriminate | reflexivity] | | lia].
  exists (Pos.to_uint p). split; [apply Unsigned.to_uint_nonnil | apply string_of_integer_pos].
Qed.

Lemma yearKey_numeral : yearKey (string_of_integer n) = string_of_integer n.
Proof.
  destruct numeral_printed as (u & _ & ->). unfold yearKey.
  rewrite toLowerCase_printed. apply replace_dash_printed.
Qed.

Lemma normalizeYear_numeral : normalizeYear (string_of_integer n) = string_of_integer n.
Proof.
  destruct numeral_printed as (u & N & ->).
  apply normalizeYear_unmapped; [apply printed_unmapped, N | apply printed_plain, N].
Qed.

Lemma numeral_not_label (label : string) :
  In label relative_labels -> String.eqb (string_of_integer n) label = false.
Proof.
  destruct numeral_printed as (u & N & ->). apply printed_not_label, N.
Qed.

End Numerals.

Lemma yearKey_beyond (k : Z) :
  (0 <= k)%Z -> yearKey ("N-" ++ string_of_integer k) = "n" ++ string_of_integer k.
Proof.
  intros H. destruct (numeral_printed k H) as (u & _ & ->).
  unfold yearKey, toLowerCase.
  change (lower_from false ("N-" ++ NilEmpty.string_of_uint u))
    with (String "n" (String "-" (toLowerCase (NilEmpty.string_of_uint u)))).
  rewrite toLowerCase_printed. reflexivity.
Qed.

Lemma beyond_unmapped (k : Z) :
  (6 <= k)%Z -> ~ In ("n" ++ string_of_integer k) mapped_tokens.
Proof.
  intros H I.
  assert (P : parseInt (string_of_integer k) = Some k)
    by (apply parseInt_string_of_integer; lia).
  cbn in I.
  repeat destruct I as [I | I]; try contradiction I;
    injection I as I; rewrite <- I in P; vm_compute in P;
    try discriminate P; injection P as P; lia.
Qed.

(** X2.  The year columns of the table and of the charts are read under
    the key [year.toLowerCase().replace('-', '')].  For the six relative
    labels [N] to [N-5] the resolver turns that key back into the label, and
    a numeral stays as it is, so these columns read the raw tables at their
    own label; from [N-6] on the key is not mapped back, and the column is
    read under ["n6"], ["n7"], ... instead of its label. *)
Theorem year_columns_lookup_key :
  (forall year, In year relative_labels ->
     In (yearKey year) mapped_tokens /\ normalizeYear (yearKey year) = year)
  /\ (forall n, (0 <= n)%Z ->
        yearKey (string_of_integer n) = string_of_integer n
        /\ normalizeYear (yearKey (string_of_integer n)) = string_of_integer n)
  /\ (forall k, (6 <= k)%Z ->
        normalizeYear (yearKey ("N-" ++ string_of_integer k)) = "n" ++ string_of_integer k
        /\ "n" ++ string_of_integer k <> "N-" ++ string_of_integer k).
Proof.
  split_all.
  - intros year I. cbn in I.
    repeat destruct I as [I | I]; try contradiction I; subst year;
      split; vm_compute; tauto.
  - intros n H. rewrite (yearKey_numeral n H). split; [reflexivity|].
    apply normalizeYear_numeral, H.
  - intros k H. split; [|discriminate].
    rewrite yearKey_beyond by lia.
    apply normalizeYear_unmapped; [apply beyond_unmapped, H | reflexivity].
Qed.

Lemma year_columns_lookup_key_witness :
  normalizeYear (yearKey "N-3") = "N-3"
  /\ normalizeYear (yearKey "2023") = "2023"
  /\ normalizeYear (yearKey "N-6") = "n6".
Proof.
  destruct year_columns_lookup_key as (Relative & Numeral & Beyond).
  split_all.
  - apply (Relative "N-3"). cbn. tauto.
  - apply (Numeral 2023%Z). lia.
  - apply (Beyond 6%Z). lia.
Defined.

(** ** Header and rows of the financial table *)

Lemma string_of_integer_not_label (z : Z) (label : string) :
  In label relative_labels -> String.eqb (string_of_integer z) label = false.
Proof.
  intros I. destruct z as [|p|p].
  - apply (numeral_not_label 0%Z); [lia | exact I].
  - apply (numeral_not_label (Zpos p)); [lia | exact I].
  - apply String.eqb_neq. intros E. rewrite <- E in I. clear E.
    unfold string_of_integer in I.
    cbn [Z.to_int NilZero.string_of_int] in I. cbn in I.
    repeat destruct I as [I | I]; try discriminate I; contradiction I.
Qed.

Lemma displayYear_numeral (d : report_data) (z : Z) :
  displayYear d (string_of_integer z) = string_of_integer z.
Proof.
  unfold displayYear. destruct (given_fiscalYears d); [|reflexivity].
  rewrite !string_of_integer_not_label by (cbn; tauto). reflexivity.
Qed.

Section FiscalYearOnly.
Variables (d : report_data) (n : Z).
Hypothesis no_computed_list : computedRatios_available_years d = None.
Hypothesis no_extracted_list : extractedKPIs_available_years d = None.
Hypothesis year_range : (0 <= n)%Z.
Hypothesis single_year : fiscalYears d = Some (string_of_integer n).

Lemma given_single_year : given_fiscalYears d = Some (string_of_integer n).
Proof.
  unfold given_fiscalYears. rewrite single_year.
  destruct (year_numeral_plain n year_range) as [-> _]. reflexivity.
Qed.

Lemma available_single_year :
  getAvailableYears d = [string_of_integer (n - 1); string_of_integer n].
Proof.
  unfold getAvailableYears. rewrite no_computed_list, no_extracted_list, single_year.
  destruct (year_numeral_plain n year_range) as [-> ->].
  unfold string_of_pred_parseInt. rewrite (parseInt_string_of_integer n year_range).
  reflexivity.
Qed.

End FiscalYearOnly.

Lemma available_default (d : report_data) :
  computedRatios_available_years d = None ->
  extractedKPIs_available_years d = None ->
  given_fiscalYears d = None ->
  getAvailableYears d = ["N"; "N-1"].
Proof.
  unfold getAvailableYears, given_fiscalYears. intros -> -> G.
  destruct (fiscalYears d) as [fy|]; [|reflexivity].
  destruct (truthy_string fy); [discriminate | reflexivity].
Qed.

(** X3.  Without a list of available years, the value columns of the
    table are the available years reversed: with the default years that is
    [N-1] before [N], the older year first; with the years derived from a
    single fiscal year [Y] (a numeral below 2^53) it is [Y] before [Y-1],
    the newer year first, and the growth column is headed by [Y]. *)
Theorem tableHeader_column_order (d : report_data) :
  computedRatios_available_years d = None ->
  extractedKPIs_available_years d = None ->
  (given_fiscalYears d = None ->
     tableHeader d = ["Indicateur Clé"; "N-1 (MAD)"; "N (MAD)"; "CAGR (%)"])
  /\ (forall n, (0 <= n < 2 ^ 53)%Z ->
        fiscalYears d = Some (string_of_integer n) ->
        tableHeader d =
        ["Indicateur Clé"; string_of_integer n ++ " (MAD)";
         string_of_integer (n - 1) ++ " (MAD)";
         "CAGR (" ++ string_of_integer n ++ ")"]).
Proof.
  intros C E. split.
  - intros G. unfold tableHeader, cagrHeader, displayYear.
    rewrite (available_default d C E G), G. reflexivity.
  - intros n [H _] F. unfold tableHeader, cagrHeader.
    rewrite (available_single_year d n C E H F), (given_single_year d n H F).
    destruct (year_numeral_plain n H) as [_ ->].
    cbn [rev app map]. rewrite !displayYear_numeral. reflexivity.
Qed.

Lemma tableHeader_column_order_witness :
  tableHeader empty_data = ["Indicateur Clé"; "N-1 (MAD)"; "N (MAD)"; "CAGR (%)"]
  /\ tableHeader single_document
     = ["Indicateur Clé"; "2023 (MAD)"; "2022 (MAD)"; "CAGR (2023)"].
Proof.
  split.
  - apply (proj1 (tableHeader_column_order empty_data eq_refl eq_refl)). reflexivity.
  - apply (proj2 (tableHeader_column_order single_document eq_refl eq_refl) 2023%Z);
      [lia | reflexivity].
Defined.

(** A flat key that ends in a numeral is a plain name. *)
Lemma last_char_app (a b : string) :
  b <> EmptyString -> last_char (a ++ b) = last_char b.
Proof.
  intros N. induction a as [|c a IH]; [reflexivity|].
  cbn [String.append last_char]. rewrite IH.
  destruct (a ++ b) eqn:E; [|reflexivity].
  destruct a; [contradiction | discriminate E].
Qed.

Lemma ends_in_digit_app (a b : string) :
  ends_in_digit b = true -> ends_in_digit (a ++ b) = true.
Proof.
  intros D. unfold ends_in_digit in *. rewrite last_char_app; [exact D|].
  intros ->. discriminate D.
Qed.

Lemma printed_ends_in_digit (u : Decimal.uint) :
  u <> Decimal.Nil -> ends_in_digit (NilEmpty.string_of_uint u) = true.
Proof.
  assert (Step : forall c rest,
             ((48 <=? nat_of_ascii c) && (nat_of_ascii c <=? 57))%nat = true ->
             (rest <> EmptyString -> ends_in_digit rest = true) ->
             ends_in_digit (String c rest) = true).
  { intros c rest C R. unfold ends_in_digit in *. cbn [last_char].
    destruct rest; [exact C | apply R; discriminate]. }
  induction u; intros N; [contradiction | ..]; cbn [NilEmpty.string_of_uint];
    (apply Step; [reflexivity|]); intros E; apply IHu; intros ->; contradiction.
Qed.

Lemma ends_in_digit_plain (s : string) :
  ends_in_digit s = true -> inherited s = false /\ (s =? "_metadata") = false.
Proof.
  intros D. split.
  - destruct (inherited s) eqn:I; [|reflexivity].
    unfold inherited in I. apply existsb_exists in I as (name & M & E).
    apply String.eqb_eq in E. subst name. cbn in M.
    repeat destruct M as [M | M]; try contradiction M; subst s; discriminate D.
  - destruct (String.eqb_spec s "_metadata") as [->|]; [discriminate D | reflexivity].
Qed.

Lemma numeral_flat_undefined (d : report_data) (key : string) (n : Z) :
  (0 <= n)%Z ->
  get_own (computedRatios d) (key ++ "_" ++ string_of_integer n) = None ->
  flat_entry d (key ++ "_" ++ string_of_integer n) = Undefined.
Proof.
  intros H F. destruct (numeral_printed n H) as (u & N & E).
  destruct (ends_in_digit_plain (key ++ "_" ++ string_of_integer n)) as [I M].
  - rewrite E. apply ends_in_digit_app, ends_in_digit_app, printed_ends_in_digit, N.
  - now apply flat_entry_plain.
Qed.

(** X4.  When the years come from a single fiscal year [Y] and the payload
    holds no value under the keys [Y] and [Y-1] (its tables being keyed by
    the relative years, say), every row without a derivation rule reads N/A
    in both year columns, whatever the tables hold under [N] and [N-1]. *)
Theorem tableRow_fiscal_year_unmatched (d : report_data) (key : string) (n : Z) :
  computedRatios_available_years d = None ->
  extractedKPIs_available_years d = None ->
  (1 <= n < 2 ^ 53)%Z ->
  fiscalYears d = Some (string_of_integer n) ->
  derivation_rule key = None ->
  get_own (computedRatios d) (key ++ "_" ++ string_of_integer n) = None ->
  get_own (computedRatios d) (key ++ "_" ++ string_of_integer (n - 1)) = None ->
  (forall label years, In (label, ETable years) (extractedKPIs d) ->
     get_own years (string_of_integer n) = None
     /\ get_own years (string_of_integer (n - 1)) = None) ->
  tableRow d key = inr [Some "N/A"; Some "N/A"].
Proof.
  intros C E [H _] F R F1 F2 Missing.
  unfold tableRow. rewrite (available_single_year d n C E ltac:(lia) F).
  cbn [rev app row_cells].
  rewrite !yearKey_numeral by lia. rewrite !getKPIValue_returns.
  apply numeral_flat_undefined in F1; [|lia].
  apply numeral_flat_undefined in F2; [|lia].
  rewrite (resolve_missing_year d key (string_of_integer n)); try assumption.
  - rewrite (resolve_missing_year d key (string_of_integer (n - 1))); try assumption.
    + reflexivity.
    + intros label years I. rewrite normalizeYear_numeral by lia.
      apply (Missing label years I).
  - intros label years I. rewrite normalizeYear_numeral by lia.
    apply (Missing label years I).
Qed.

Lemma tableRow_fiscal_year_unmatched_witness :
  tableRow single_document "chiffre_d_affaires" = inr [Some "N/A"; Some "N/A"]
  /\ getKPIValue single_document "chiffre_d_affaires" "n" = inr (Num 1100).
Proof.
  split; [|reflexivity].
  apply (tableRow_fiscal_year_unmatched single_document "chiffre_d_affaires" 2023%Z);
    try reflexivity; [lia|].
  intros label years [I | [I | []]]; injection I as _ <-; split; reflexivity.
Defined.

(** X5.  When fiscal years are given, every place that names the current
    year names the same one: [getCurrentYearInfo], the label of the column
    [N], the heading of the growth column and [replaceYearPlaceholders];
    the label of the column [N-1] is the previous year of
    [replaceYearPlaceholders]; and the years derived from the fiscal years
    are that previous year followed by that current year. *)
Theorem current_year_named_alike (d : report_data) (fy : string) :
  given_fiscalYears d = Some fy ->
  displayYear d "N" = getCurrentYearInfo d
  /\ cagrHeader d = "CAGR (" ++ getCurrentYearInfo d ++ ")"
  /\ replaceYearPlaceholders d = Some (getCurrentYearInfo d, displayYear d "N-1")
  /\ (computedRatios_available_years d = None ->
      extractedKPIs_available_years d = None ->
      getAvailableYears d = [displayYear d "N-1"; getCurrentYearInfo d]).
Proof.
  intros G.
  unfold displayYear, cagrHeader, getCurrentYearInfo. rewrite G.
  unfold given_fiscalYears in G.
  destruct (fiscalYears d) as [fy'|] eqn:F; [|discriminate].
  destruct (truthy_string fy') eqn:T; [|discriminate]. injection G as ->.
  cbn [String.eqb Ascii.eqb Bool.eqb].
  split_all; try reflexivity.
  - unfold replaceYearPlaceholders. rewrite F, T.
    destruct (includes fy "-"); reflexivity.
  - intros C E. unfold getAvailableYears. rewrite C, E, F, T.
    destruct (includes fy "-"); reflexivity.
Qed.

Lemma current_year_named_alike_witness :
  displayYear two_years "N" = "2023"
  /\ getCurrentYearInfo two_years = "2023"
  /\ replaceYearPlaceholders two_years = Some ("2023", "2022")
  /\ getAvailableYears two_years = ["2022"; "2023"].
Proof.
  destruct (current_year_named_alike two_years "2022-2023" eq_refl)
    as (Column & _ & Placeholders & Years).
  split_all.
  - rewrite Column. reflexivity.
  - reflexivity.
  - rewrite Placeholders. reflexivity.
  - rewrite Years; reflexivity.
Defined.

(** ** Ratios, their cells and the narrative *)

(** X6.  [calculateMissingRatios] never takes its fallback: it always
    returns the seven ratios, [rotation_actifs] included, and a ratio whose
    denominator is above zero is the quotient of the resolved figures, as a
    percentage for the margins and the returns; the EBITDA of the first
    margin is the one [calculateEBITDA] derives for the year [N]. *)
Theorem calculateMissingRatios_complete
    (d : report_data) (ca rn re cp dn e total_n total_n1 : value) :
  getKPIValue d "chiffre_d_affaires" "n" = inr ca ->
  getKPIValue d "resultat_net" "n" = inr rn ->
  getKPIValue d "resultat_d_exploitation" "n" = inr re ->
  getKPIValue d "capitaux_propres" "n" = inr cp ->
  getKPIValue d "dette_nette" "n" = inr dn ->
  calculateEBITDA d "N" = inr e ->
  getKPIValue d "actif_circulant_total" "n" = inr total_n ->
  getKPIValue d "actif_circulant_total" "n1" = inr total_n1 ->
  exists ratios,
    calculateMissingRatios d = inr ratios
    /\ map fst ratios
       = [ "marge_ebitda"; "marge_exploitation"; "marge_nette"; "roe"; "roce";
           "gearing"; "rotation_actifs" ]
    /\ (PrimFloat.ltb 0 (number_or_zero ca) = true ->
        get_own ratios "marge_ebitda"
          = Some (number_or_zero e / number_or_zero ca * 100)%float
        /\ get_own ratios "marge_exploitation"
           = Some (number_or_zero re / number_or_zero ca * 100)%float
        /\ get_own ratios "marge_nette"
           = Some (number_or_zero rn / number_or_zero ca * 100)%float)
    /\ (PrimFloat.ltb 0 (number_or_zero cp) = true ->
        get_own ratios "roe" = Some (number_or_zero rn / number_or_zero cp * 100)%float
        /\ get_own ratios "roce" = Some (number_or_zero re / number_or_zero cp * 100)%float
        /\ get_own ratios "gearing"
           = Some (number_or_zero dn / number_or_zero cp * 100)%float)
    /\ (let moyen := ((number_or_zero total_n + number_or_zero total_n1) / 2)%float in
        PrimFloat.ltb 0 moyen = true ->
        get_own ratios "rotation_actifs" = Some (number_or_zero ca / moyen)%float).
Proof.
  intros Hca Hrn Hre Hcp Hdn He Hn Hn1.
  rewrite getKPIValue_returns in Hca, Hrn, Hre, Hcp, Hdn, Hn, Hn1.
  rewrite calculateEBITDA_returns in He.
  injection Hca as Hca. injection Hrn as Hrn. injection Hre as Hre.
  injection Hcp as Hcp. injection Hdn as Hdn. injection He as He.
  injection Hn as Hn. injection Hn1 as Hn1.
  rewrite calculateMissingRatios_returns. cbn zeta.
  rewrite Hca, Hrn, Hre, Hcp, Hdn, He, Hn, Hn1.
  eexists. split; [reflexivity|]. split; [reflexivity|].
  cbn [get_own String.eqb Ascii.eqb Bool.eqb]. unfold guarded.
  split_all; intros ->; split_all; reflexivity.
Qed.

Lemma calculateMissingRatios_complete_witness :
  exists ratios,
    calculateMissingRatios operating_turnover = inr ratios
    /\ List.length ratios = 7%nat
    /\ get_own ratios "marge_ebitda" = Some ((500 + 100 - 50) / 2000 * 100)%float
    /\ get_own ratios "marge_exploitation" = Some (500 / 2000 * 100)%float
    /\ get_own ratios "roe" = Some (150 / 400 * 100)%float.
Proof.
  destruct (calculateMissingRatios_complete operating_turnover
              (Num 2000) (Num 150) (Num 500) (Num 400) Null (Num 550) Null Null
              eq_refl eq_refl eq_refl eq_refl eq_refl eq_refl eq_refl eq_refl)
    as (ratios & E & Keys & Margins & Returns & _).
  exists ratios. split_all.
  - exact E.
  - rewrite <- (length_map fst), Keys. reflexivity.
  - apply Margins. reflexivity.
  - apply Margins. reflexivity.
  - apply Returns. reflexivity.
Defined.

Lemma flat_entry_with_flat_ebitda (d : report_data) (v : option float) (flatKey : string) :
  String.eqb "ebitda_n" flatKey = false ->
  flat_entry {| extractedKPIs := extractedKPIs d;
                computedRatios := ("ebitda_n", v) :: computedRatios d;
                computedRatios_available_years := computedRatios_available_years d;
                extractedKPIs_available_years := extractedKPIs_available_years d;
                fiscalYears := fiscalYears d |} flatKey
  = flat_entry d flatKey.
Proof.
  intros E. unfold flat_entry. cbn [computedRatios get_own computedRatios_available_years].
  rewrite E. reflexivity.
Qed.

Lemma resolve_with_flat_ebitda (d : report_data) (v : option float) (key token : string) :
  String.eqb "ebitda_n" (key ++ "_" ++ token) = false ->
  resolve {| extractedKPIs := extractedKPIs d;
             computedRatios := ("ebitda_n", v) :: computedRatios d;
             computedRatios_available_years := computedRatios_available_years d;
             extractedKPIs_available_years := extractedKPIs_available_years d;
             fiscalYears := fiscalYears d |} key token
  = resolve d key token.
Proof.
  intros E. unfold resolve. rewrite (flat_entry_with_flat_ebitda d v _ E).
  destruct (defined (flat_entry d (key ++ "_" ++ token))); [reflexivity|].
  unfold derivation_rule.
  destruct (key =? "ebitda"); [reflexivity|].
  destruct (key =? "bfr"); reflexivity.
Qed.

(** X7.  The EBITDA margin of the ratios is always computed from the
    derived EBITDA: a flat entry [ebitda_n] changes what [getKPIValue]
    answers for [ebitda] (and so the table and the narrative), but leaves
    every ratio of [calculateMissingRatios] as it was. *)
Theorem calculateMissingRatios_ignores_flat_ebitda (d : report_data) (v : option float) :
  let with_flat :=
    {| extractedKPIs := extractedKPIs d;
       computedRatios := ("ebitda_n", v) :: computedRatios d;
       computedRatios_available_years := computedRatios_available_years d;
       extractedKPIs_available_years := extractedKPIs_available_years d;
       fiscalYears := fiscalYears d |} in
  getKPIValue with_flat "ebitda" "n" = inr (of_leaf v)
  /\ calculateMissingRatios with_flat = calculateMissingRatios d.
Proof.
  intros with_flat. split.
  { rewrite getKPIValue_returns. unfold resolve.
    change ("ebitda" ++ "_" ++ "n") with "ebitda_n".
    rewrite (flat_entry_own with_flat "ebitda_n" v eq_refl), of_leaf_defined.
    reflexivity. }
  rewrite !calculateMissingRatios_returns. subst with_flat.
  rewrite !resolve_with_flat_ebitda by reflexivity. reflexivity.
Qed.

Lemma percent_not_na (t : string) : t ++ "%" <> "N/A".
Proof.
  destruct t as [|a [|b [|c [|e t]]]]; cbn; discriminate.
Qed.

(** X8.  A metric cell reads N/A exactly when its ratio is missing or NaN;
    so a ratio set to 0 by its guard reads 0,0% (where the liquidity cell
    reads N/A): with equity at or below zero the cells [roe], [roce],
    [gearing] and [gearin] all read 0,0%. *)
Theorem metric_cells_zero_not_na (d : report_data) (cp : value) :
  (forall v, formatPercentage v = Some "N/A" <-> (not_nullish v = false \/ isNaN v = true))
  /\ (getKPIValue d "capitaux_propres" "n" = inr cp ->
      PrimFloat.leb (number_or_zero cp) 0 = true ->
      exists cells,
        metricCells d = inr cells
        /\ get_own cells "roe" = Some (Some "0,0%")
        /\ get_own cells "roce" = Some (Some "0,0%")
        /\ get_own cells "gearing" = Some (Some "0,0%")
        /\ get_own cells "gearin" = Some (Some "0,0%")).
Proof.
  split.
  - intros [| |x|name]; cbn [formatPercentage not_nullish isNaN toNumber].
    + split; [left; reflexivity | reflexivity].
    + split; [left; reflexivity | reflexivity].
    + unfold parseFloat_number, isNaN, toNumber. destruct (PrimFloat.eqb x 0) eqn:Z.
      * assert (N : PrimFloat.is_nan x = false).
        { unfold PrimFloat.is_nan. apply eqb_zero_spec in Z. destruct Z as [s Z].
          rewrite eqb_spec, Z. destruct s; reflexivity. }
        split; [intros H; vm_compute in H; discriminate H|].
        intros [H | H]; [discriminate H | rewrite N in H; discriminate H].
      * destruct (PrimFloat.is_nan x); [split; [right; reflexivity | reflexivity]|].
        split; [|intros [H | H]; discriminate H].
        destruct (toFixed 1 x) as [t|]; [|discriminate].
        cbn [option_map]. intros H. injection H as H.
        exfalso. exact (percent_not_na _ H).
    + split; [intros _; right; reflexivity | reflexivity].
  - intros Hcp Le. rewrite getKPIValue_returns in Hcp. injection Hcp as Hcp.
    unfold metricCells. rewrite calculateMissingRatios_returns. cbn zeta.
    rewrite Hcp. cbn [bind Monad_either ret]. eexists. split; [reflexivity|].
    cbn [map metricMappings fst snd get_own String.eqb Ascii.eqb Bool.eqb ratio_value].
    rewrite !(guarded_zero _ _ Le). split_all; reflexivity.
Qed.

Lemma metric_cells_zero_not_na_witness :
  exists cells,
    metricCells negative_equity = inr cells
    /\ get_own cells "roe" = Some (Some "0,0%")
    /\ get_own cells "roce" = Some (Some "0,0%")
    /\ get_own cells "gearing" = Some (Some "0,0%")
    /\ get_own cells "gearin" = Some (Some "0,0%").
Proof.
  apply (proj2 (metric_cells_zero_not_na negative_equity (Num (-50)))); reflexivity.
Defined.

Lemma number_or_zero_falsy (v : value) : truthy v = false -> number_or_zero v = 0%float.
Proof. intros T. unfold number_or_zero, or_else. rewrite T. reflexivity. Qed.

(** X9.  When the turnover of the current year resolves to nothing that
    reads as true (it is missing, [null] or 0), the narrative gives the
    margin as N/A and the profitability as to be assessed, adds no turnover
    sentence, and reads the growth as a contraction with the current year
    unavailable when the previous turnover is above zero, as insufficient
    data otherwise. *)
Theorem insights_without_current_turnover (d : report_data) (current previous : value) :
  getKPIValue d "chiffre_d_affaires" "n" = inr current ->
  getKPIValue d "chiffre_d_affaires" "n1" = inr previous ->
  truthy current = false ->
  generateFinancialInsights d =
  inr (Some ("Sur la période traitée, l'entreprise affiche une "
             ++ (if PrimFloat.ltb 0 (number_or_zero previous)
                 then "contraction (données N non disponibles)"
                 else "évolution à analyser (données insuffisantes)")
             ++ ". La marge EBITDA s'établit à N/A, traduisant une rentabilité à évaluer.")).
Proof.
  intros Hc Hp T.
  rewrite getKPIValue_returns in Hc, Hp. injection Hc as Hc. injection Hp as Hp.
  unfold generateFinancialInsights.
  rewrite !resolved_or_zero_returns. cbn [bind Monad_either].
  rewrite Hc, Hp, (number_or_zero_falsy _ T).
  unfold margin_texts. change (PrimFloat.ltb 0 0) with false. rewrite andb_false_r.
  cbn [bind Monad_either ret fst snd catch Exception_either].
  unfold cagrText. change (PrimFloat.ltb 0 0) with false.
  change (PrimFloat.eqb 0 0) with true. cbn [andb].
  destruct (PrimFloat.ltb 0 (number_or_zero previous)); reflexivity.
Qed.

Lemma insights_without_current_turnover_witness :
  generateFinancialInsights empty_data =
  inr (Some "Sur la période traitée, l'entreprise affiche une évolution à analyser (données insuffisantes). La marge EBITDA s'établit à N/A, traduisant une rentabilité à évaluer.")
  /\ generateFinancialInsights zero_turnover =
     inr (Some "Sur la période traitée, l'entreprise affiche une contraction (données N non disponibles). La marge EBITDA s'établit à N/A, traduisant une rentabilité à évaluer.").
Proof.
  split.
  - apply (insights_without_current_turnover empty_data Null Null); reflexivity.
  - apply (insights_without_current_turnover zero_turnover Null (Num 1000)); reflexivity.
Defined.

(** ** The two growth cells *)

Lemma is_nan_spec (x : float) : PrimFloat.is_nan x = true -> Prim2SF x = S754_nan.
Proof.
  unfold PrimFloat.is_nan. rewrite eqb_spec. unfold SFeqb, SFcompare.
  destruct (Prim2SF x) as [s|[|]| |[|] m e]; try reflexivity; try discriminate.
  - rewrite Z.compare_refl, Pos.compare_cont_refl. discriminate.
  - rewrite Z.compare_refl, Pos.compare_cont_refl. discriminate.
Qed.

Lemma nan_renders (x : float) :
  PrimFloat.is_nan x = true ->
  PrimFloat.leb 0 x = false /\ toFixed 1 x = Some "NaN".
Proof.
  intros N. apply is_nan_spec in N. split.
  - rewrite leb_spec, N. reflexivity.
  - unfold toFixed. rewrite N. reflexivity.
Qed.

(** X10.  The growth cell of the report and the growth cell of the preview
    show the same thing for the same two values, but for one case: when the
    growth computes to NaN (an infinite value over an infinite one), the
    report shows the dash and the preview prints NaN as a fall. *)
Theorem growth_cells_compared (d : report_data) (key : string) (current previous : value) :
  getKPIValue d key "n" = inr current ->
  getKPIValue d key "n1" = inr previous ->
  let growth := ((toNumber current / toNumber previous - 1) * 100)%float in
  (growth_defined current previous /\ PrimFloat.is_nan growth = true ->
     computeAndDisplayCAGR d key = inr NoData
     /\ ProfileView.renderCAGR current previous = Change false (Some "NaN"))
  /\ (~ (growth_defined current previous /\ PrimFloat.is_nan growth = true) ->
      computeAndDisplayCAGR d key = inr (ProfileView.renderCAGR current previous)).
Proof.
  intros Hc Hp growth.
  rewrite getKPIValue_returns in Hc, Hp. injection Hc as Hc. injection Hp as Hp.
  unfold computeAndDisplayCAGR, ProfileView.renderCAGR.
  rewrite cagr_returns. cbn zeta. rewrite Hc, Hp. fold growth.
  split.
  - intros [G N]. apply growth_test in G. rewrite G.
    cbn [bind Monad_either ret]. unfold renderCAGRCell, isNaN, toNumber, not_nullish.
    cbn [negb orb]. rewrite N.
    destruct (nan_renders growth N) as [-> ->]. split; reflexivity.
  - intros H.
    match goal with
    | |- context [if ?b then Num _ else _] => destruct b eqn:E
    end; [|reflexivity].
    cbn [bind Monad_either ret]. unfold renderCAGRCell, isNaN, toNumber, not_nullish.
    cbn [negb orb].
    destruct (PrimFloat.is_nan growth) eqn:N; [|reflexivity].
    exfalso. apply H. split; [apply growth_test, E | reflexivity].
Qed.

Lemma growth_cells_compared_witness :
  (computeAndDisplayCAGR infinite_turnover "chiffre_d_affaires" = inr NoData
   /\ ProfileView.renderCAGR (Num PrimFloat.infinity) (Num PrimFloat.infinity)
      = Change false (Some "NaN"))
  /\ computeAndDisplayCAGR two_years "chiffre_d_affaires"
     = inr (ProfileView.renderCAGR (Num 1100) (Num 1000)).
Proof.
  split.
  - apply (proj1 (growth_cells_compared infinite_turnover "chiffre_d_affaires"
                    (Num PrimFloat.infinity) (Num PrimFloat.infinity) eq_refl eq_refl)).
    split; [|reflexivity].
    exists PrimFloat.infinity, PrimFloat.infinity. split_all; reflexivity.
  - apply (proj2 (growth_cells_compared two_years "chiffre_d_affaires"
                    (Num 1100) (Num 1000) eq_refl eq_refl)).
    intros [_ N]. vm_compute in N. discriminate N.
Defined.

(** ** The two resolvers *)

Lemma shared_kpis_registered (k : Preview.kpi) :
  In k shared_kpis ->
  get_own kpiNameMappings (Preview.key k) = Some (Preview.dbKey k)
  /\ derivation_rule (Preview.key k) = None.
Proof.
  intros I. vm_compute in I.
  repeat destruct I as [I | I]; try contradiction I; subst k; split; reflexivity.
Qed.

Lemma preview_year (token : string) :
  In token ["n"; "n1"] -> Preview.normalizedYear token = normalizeYear token.
Proof.
  intros I. cbn in I.
  repeat destruct I as [I | I]; try contradiction I; subst token; reflexivity.
Qed.

(** X11.  On the same tables, for the four keys both registries label
    alike (turnover, net result, net treasury, equity) and the tokens [n]
    and [n1]: both resolvers return a defined flat entry; and when the label
    has a year table, the report returns what the preview returns with
    every value that reads as false turned into [null].  So a stored 0 is 0
    in the preview and [null] in the report. *)
Theorem resolvers_compared (d : report_data) (k : Preview.kpi) (token : string) :
  In k shared_kpis -> In token ["n"; "n1"] ->
  let flat := get_own (computedRatios d) (Preview.key k ++ "_" ++ token) in
  (forall found, flat = Some found ->
     Preview.getKPIValue (preview_of d) k token = inr (of_leaf found)
     /\ getKPIValue d (Preview.key k) token = inr (of_leaf found))
  /\ (forall years, flat = None ->
        get_own (extractedKPIs d) (Preview.dbKey k) = Some (ETable years) ->
        exists v,
          Preview.getKPIValue (preview_of d) k token = inr v
          /\ getKPIValue d (Preview.key k) token = inr (or_else v Null)
          /\ (get_own years (normalizeYear token) = Some (Some 0%float) ->
              v = Num 0 /\ or_else v Null = Null)).
Proof.
  intros Hk Ht flat.
  destruct (shared_kpis_registered k Hk) as [K R].
  rewrite getKPIValue_returns. unfold Preview.getKPIValue.
  cbn [preview_of Preview.computed_ratios Preview.kpis]. fold flat.
  split.
  - intros found F. rewrite F. unfold resolve.
    rewrite (flat_entry_own _ _ _ F), of_leaf_defined. split; reflexivity.
  - intros years F T. rewrite F.
    rewrite (resolve_without_flat _ _ _ (registered_flat_undefined _ _ _ _ K F)), R.
    unfold nested_lookup.
    rewrite (dbKey_of_registered _ _ K), T, (preview_year token Ht).
    cbn [truthy_entry member].
    destruct (get_own years (normalizeYear token)) as [[x|]|].
    + exists (Num x). split_all; try reflexivity.
      intros E. injection E as ->. split; reflexivity.
    + exists Null. split_all; try reflexivity. discriminate.
    + exists Null. split_all; try reflexivity. discriminate.
Qed.

Lemma resolvers_compared_witness :
  (exists v,
      Preview.getKPIValue (preview_of zero_equity)
        {| Preview.name := "Capitaux Propres"; Preview.key := "capitaux_propres";
           Preview.dbKey := "Capitaux propres" |} "n" = inr v
      /\ getKPIValue zero_equity "capitaux_propres" "n" = inr (or_else v Null)
      /\ v = Num 0 /\ or_else v Null = Null)
  /\ Preview.getKPIValue (preview_of two_years)
       {| Preview.name := "Dette Nette"; Preview.key := "dette_nette";
          Preview.dbKey := "Dette nette" |} "n" = inr (Num 70).
Proof.
  split; [|reflexivity].
  destruct (resolvers_compared zero_equity
              {| Preview.name := "Capitaux Propres"; Preview.key := "capitaux_propres";
                 Preview.dbKey := "Capitaux propres" |} "n") as (_ & Nested).
  - vm_compute. tauto.
  - cbn. tauto.
  - destruct (Nested [ ("N", Some 0%float); ("2021", Some 40%float) ] eq_refl eq_refl)
      as (v & P & Rp & Zero).
    exists v. split_all; [exact P | exact Rp | apply Zero; reflexivity ..].
Defined.

(** * Properties of the upload list *)

Section UploadList.
Import Upload.

Variable maxFiles : nat.
Variable maxSize : Z.

Lemma newFiles_length (fresh : nat -> string) (k : nat) (filesToAdd : list file) :
  List.length (newFiles fresh k filesToAdd) = List.length filesToAdd.
Proof.
  revert k. induction filesToAdd as [|f rest IH]; intros k; simpl; [reflexivity|].
  now rewrite IH.
Qed.

Lemma newFiles_selection (fresh : nat -> string) (k : nat) (filesToAdd : list file) :
  selection (newFiles fresh k filesToAdd) = filesToAdd.
Proof.
  revert k. induction filesToAdd as [|f rest IH]; intros k; simpl; [reflexivity|].
  unfold selection in IH. now rewrite IH.
Qed.

(** What [onDrop] leaves, without the early returns: they all leave the
    list the general case gives. *)
Lemma onDrop_appends (fresh : nat -> string) (files : list selected) (acceptedFiles : list file) :
  onDrop maxFiles maxSize fresh files acceptedFiles
  = (files ++ newFiles fresh 0
        (firstn (maxFiles - List.length files)
           (filter (fun f => negb (maxSize <? file_size f)%Z) acceptedFiles)))%list.
Proof.
  unfold onDrop. destruct acceptedFiles as [|a rest].
  - simpl. rewrite firstn_nil. simpl. now rewrite app_nil_r.
  - destruct (filter _ (a :: rest)) as [|v valid].
    + rewrite firstn_nil. simpl. now rewrite app_nil_r.
    + destruct (firstn _ (v :: valid)); [simpl; now rewrite app_nil_r | reflexivity].
Qed.

Lemma within_size_app (xs ys : list selected) :
  within_size maxSize (xs ++ ys) = within_size maxSize xs && within_size maxSize ys.
Proof. unfold within_size. apply forallb_app. Qed.

Lemma within_size_new (fresh : nat -> string) (k : nat) (filesToAdd : list file) :
  Forall (fun f => (file_size f <= maxSize)%Z) filesToAdd ->
  within_size maxSize (newFiles fresh k filesToAdd) = true.
Proof.
  intros F. revert k. induction F as [|f rest Hf _ IH]; intros k; [reflexivity|].
  simpl. rewrite IH. apply Z.leb_le in Hf. now rewrite Hf.
Qed.

Lemma valid_files_small (acceptedFiles : list file) (n : nat) :
  Forall (fun f => (file_size f <= maxSize)%Z)
    (firstn n (filter (fun f => negb (maxSize <? file_size f)%Z) acceptedFiles)).
Proof.
  apply Forall_forall. intros f I.
  assert (I' : In f (filter (fun f => negb (maxSize <? file_size f)%Z) acceptedFiles)).
  { rewrite <- (firstn_skipn n). apply in_or_app. left. exact I. }
  apply filter_In in I' as [_ S]. apply negb_true_iff, Z.ltb_ge in S. exact S.
Qed.

Lemma onDrop_invariant (fresh : nat -> string) (files : list selected) (acceptedFiles : list file) :
  (List.length files <= maxFiles)%nat -> within_size maxSize files = true ->
  (List.length (onDrop maxFiles maxSize fresh files acceptedFiles) <= maxFiles)%nat
  /\ within_size maxSize (onDrop maxFiles maxSize fresh files acceptedFiles) = true.
Proof.
  intros L W. rewrite onDrop_appends. split.
  - rewrite length_app, newFiles_length.
    pose proof (firstn_le_length (maxFiles - List.length files)
                  (filter (fun f => negb (maxSize <? file_size f)%Z) acceptedFiles)).
    pose proof (length_firstn (maxFiles - List.length files)
                  (filter (fun f => negb (maxSize <? file_size f)%Z) acceptedFiles)).
    lia.
  - rewrite within_size_app, W. apply within_size_new, valid_files_small.
Qed.

Lemma removeFile_invariant (files : list selected) (fileId : string) :
  (List.length files <= maxFiles)%nat -> within_size maxSize files = true ->
  (List.length (removeFile files fileId) <= maxFiles)%nat
  /\ within_size maxSize (removeFile files fileId) = true.
Proof.
  intros L W. unfold removeFile. split.
  - pose proof (filter_length_le (fun f => negb (String.eqb (id f) fileId)) files). lia.
  - unfold within_size in *. apply forallb_forall. intros s I.
    apply filter_In in I as [I _]. revert s I. now apply forallb_forall.
Qed.

Lemma run_invariant (actions : list action) (files : list selected) :
  (List.length files <= maxFiles)%nat -> within_size maxSize files = true ->
  (List.length (run maxFiles maxSize files actions) <= maxFiles)%nat
  /\ within_size maxSize (run maxFiles maxSize files actions) = true.
Proof.
  revert files. induction actions as [|a rest IH]; intros files L W; [now split|].
  unfold run. simpl. fold (run maxFiles maxSize (step maxFiles maxSize files a) rest).
  destruct a as [fresh acc|fileId]; simpl.
  - destruct (onDrop_invariant fresh files acc L W). now apply IH.
  - destruct (removeFile_invariant files fileId L W). now apply IH.
Qed.

Lemma removeFile_absent (files : list selected) (fileId : string) :
  ~ In fileId (map id files) -> removeFile files fileId = files.
Proof.
  induction files as [|s rest IH]; intros A; [reflexivity|].
  unfold removeFile in *. simpl.
  destruct (String.eqb_spec (id s) fileId) as [E|N].
  - exfalso. apply A. left. exact E.
  - simpl. f_equal. apply IH. intros I. apply A. right. exact I.
Qed.

Lemma removeFile_app (xs ys : list selected) (fileId : string) :
  removeFile (xs ++ ys) fileId = (removeFile xs fileId ++ removeFile ys fileId)%list.
Proof. unfold removeFile. apply filter_app. Qed.

End UploadList.

(** X12.  Whatever files are dropped on the list and whatever entries are
    removed from it, in any order, from the empty list: it never holds more
    than [maxFiles] entries, nor a file larger than [maxSize]; and with the
    limit of three the wizard passes, its check of the second step fails
    only on the empty list. *)
Theorem upload_list_stays_within_limits (maxFiles : nat) (maxSize : Z) (actions : list action) :
  let files := run maxFiles maxSize [] actions in
  (List.length files <= maxFiles)%nat
  /\ within_size maxSize files = true
  /\ Upload.validateStep2 (Upload.selection (run 3 maxSize [] actions))
     = negb (Nat.eqb (List.length (run 3 maxSize [] actions)) 0).
Proof.
  intros files.
  destruct (run_invariant maxFiles maxSize actions []) as [L W]; [simpl; lia | reflexivity |].
  split_all; [exact L | exact W |].
  destruct (run_invariant 3 maxSize actions []) as [L3 _]; [simpl; lia | reflexivity |].
  unfold Upload.validateStep2, Upload.selection. rewrite length_map.
  destruct (List.length (run 3 maxSize [] actions)) as [|n]; [reflexivity|].
  apply Nat.leb_le in L3. rewrite L3. reflexivity.
Qed.

(** X13.  [onDrop] keeps the entries of the list in place and adds after
    them, in the order given, the first accepted files that are not larger
    than [maxSize], as many as there are slots left; a full list is left as
    it is. *)
Theorem onDrop_adds_after (maxFiles : nat) (maxSize : Z) (fresh : nat -> string)
    (files : list Upload.selected) (acceptedFiles : list Upload.file) :
  Upload.selection (Upload.onDrop maxFiles maxSize fresh files acceptedFiles)
  = (Upload.selection files
     ++ firstn (maxFiles - List.length files)
          (filter (fun f => (Upload.file_size f <=? maxSize)%Z) acceptedFiles))%list
  /\ firstn (List.length files) (Upload.onDrop maxFiles maxSize fresh files acceptedFiles) = files
  /\ ((maxFiles <= List.length files)%nat ->
      Upload.onDrop maxFiles maxSize fresh files acceptedFiles = files).
Proof.
  rewrite onDrop_appends.
  assert (Same : filter (fun f => negb (maxSize <? Upload.file_size f)%Z) acceptedFiles
                 = filter (fun f => (Upload.file_size f <=? maxSize)%Z) acceptedFiles).
  { apply filter_ext. intros f. rewrite Z.leb_antisym. reflexivity. }
  rewrite Same. split_all.
  - unfold Upload.selection. rewrite map_app.
    fold (Upload.selection (Upload.newFiles fresh 0
            (firstn (maxFiles - List.length files)
               (filter (fun f => (Upload.file_size f <=? maxSize)%Z) acceptedFiles)))).
    now rewrite newFiles_selection.
  - rewrite firstn_app, Nat.sub_diag, firstn_all. simpl. now rewrite app_nil_r.
  - intros Full. replace (maxFiles - List.length files)%nat with 0%nat by lia.
    simpl. now rewrite app_nil_r.
Qed.

Lemma onDrop_adds_after_witness :
  Upload.onDrop 1 16777216 numbered
    (Upload.onDrop 1 16777216 numbered [] [large_file; report_file]) [report_file]
  = [ {| Upload.selected_file := report_file; Upload.id := "f0"; Upload.status := "ready" |} ].
Proof.
  destruct (onDrop_adds_after 1 16777216 numbered
              (Upload.onDrop 1 16777216 numbered [] [large_file; report_file]) [report_file])
    as (_ & _ & Full).
  rewrite Full; [reflexivity | simpl; lia].
Defined.

(** X14.  Removing the entry of a file that was just dropped gives back the
    list as it was before the drop, provided the identifier drawn for the
    file is not the identifier of an entry of the list; and when it is, the
    older entry is removed with it. *)
Theorem drop_then_remove (maxFiles : nat) (maxSize : Z) (fresh : nat -> string)
    (files : list Upload.selected) (f : Upload.file) :
  (~ In (fresh 0%nat) (map Upload.id files) ->
   Upload.removeFile (Upload.onDrop maxFiles maxSize fresh files [f]) (fresh 0%nat) = files)
  /\ (In (fresh 0%nat) (map Upload.id files) ->
      (List.length (Upload.removeFile (Upload.onDrop maxFiles maxSize fresh files [f]) (fresh 0%nat))
       < List.length files)%nat).
Proof.
  rewrite onDrop_appends, removeFile_app.
  assert (New : Upload.removeFile
                  (Upload.newFiles fresh 0
                     (firstn (maxFiles - List.length files)
                        (filter (fun f0 => negb (maxSize <? Upload.file_size f0)%Z) [f])))
                  (fresh 0%nat) = []).
  { simpl. destruct (negb _); [|now rewrite firstn_nil].
    destruct (maxFiles - List.length files)%nat; [reflexivity|].
    simpl. rewrite firstn_nil. unfold Upload.removeFile. simpl.
    now rewrite String.eqb_refl. }
  rewrite New, app_nil_r. split.
  - apply removeFile_absent.
  - intros I. clear New. induction files as [|s rest IH]; [contradiction I|].
    unfold Upload.removeFile in *. simpl.
    pose proof (filter_length_le (fun x => negb (String.eqb (Upload.id x) (fresh 0%nat))) rest).
    destruct (String.eqb_spec (Upload.id s) (fresh 0%nat)) as [E|N]; simpl.
    + lia.
    + destruct I as [I|I]; [contradiction|]. specialize (IH I). lia.
Qed.

Lemma drop_then_remove_witness :
  Upload.removeFile
    (Upload.onDrop 3 16777216 (fun k => numbered (S k))
       [ {| Upload.selected_file := report_file; Upload.id := "f0"; Upload.status := "ready" |} ]
       [report_file]) "f1"
  = [ {| Upload.selected_file := report_file; Upload.id := "f0"; Upload.status := "ready" |} ]
  /\ (List.length
        (Upload.removeFile
           (Upload.onDrop 3 16777216 numbered
              [ {| Upload.selected_file := report_file; Upload.id := "f0"; Upload.status := "ready" |} ]
              [report_file]) "f0") < 1)%nat.
Proof.
  split.
  - destruct (drop_then_remove 3 16777216 (fun k => numbered (S k))
                [ {| Upload.selected_file := report_file; Upload.id := "f0";
                     Upload.status := "ready" |} ] report_file) as [Back _].
    apply Back. vm_compute. intros [E|[]]. discriminate E.
  - destruct (drop_then_remove 3 16777216 numbered
                [ {| Upload.selected_file := report_file; Upload.id := "f0";
                     Upload.status := "ready" |} ] report_file) as [_ Taken].
    apply Taken. vm_compute. left. reflexivity.
Defined.

(** * Properties of the relative times *)

Lemma shifted_seconds (t now : Z) :
  ((now - (t + 1 * 60 * 60 * 1000)) / 1000 = (now - t) / 1000 - 3600)%Z.
Proof.
  replace (now - (t + 1 * 60 * 60 * 1000))%Z with (now - t + (- 3600) * 1000)%Z by lia.
  rewrite Z.div_add by lia. lia.
Qed.

Lemma shifted_quotient (elapsed k unit : Z) :
  (0 < unit)%Z -> ((elapsed - k * unit) / unit = elapsed / unit - k)%Z.
Proof.
  intros P. replace (elapsed - k * unit)%Z with (elapsed + (- k) * unit)%Z by lia.
  rewrite Z.div_add by lia. lia.
Qed.

(** X15.  The instant is moved one hour forward and the clock is not, so
    the time that has passed is counted one hour short: an instant less
    than 61 minutes old reads "Just now", one between 61 minutes and two
    hours old reads its minutes less 60, and one between two and 25 hours
    old reads its hours less one. *)
Theorem relative_time_counts_an_hour_less (t now : Z) :
  let elapsed := ((now - t) / 1000)%Z in
  ((elapsed < 3660)%Z ->
   Dates.getMoroccanRelativeTime (Some t) now = Dates.Text "Just now")
  /\ ((3660 <= elapsed < 7200)%Z ->
      Dates.getMoroccanRelativeTime (Some t) now
      = Dates.Text (Dates.ago (elapsed / 60 - 60) "minute"))
  /\ ((7200 <= elapsed < 90000)%Z ->
      Dates.getMoroccanRelativeTime (Some t) now
      = Dates.Text (Dates.ago (elapsed / 3600 - 1) "hour")).
Proof.
  intros elapsed. unfold Dates.getMoroccanRelativeTime.
  rewrite shifted_seconds. fold elapsed. split_all.
  - intros H. destruct (Z.ltb_spec (elapsed - 3600) 60); [reflexivity | lia].
  - intros H. destruct (Z.ltb_spec (elapsed - 3600) 60); [lia|].
    destruct (Z.ltb_spec (elapsed - 3600) 3600); [|lia].
    replace (elapsed - 3600)%Z with (elapsed - 60 * 60)%Z by lia.
    now rewrite shifted_quotient by lia.
  - intros H. destruct (Z.ltb_spec (elapsed - 3600) 60); [lia|].
    destruct (Z.ltb_spec (elapsed - 3600) 3600); [lia|].
    destruct (Z.ltb_spec (elapsed - 3600) 86400); [|lia].
    replace (elapsed - 3600)%Z with (elapsed - 1 * 3600)%Z at 1 by lia.
    now rewrite shifted_quotient by lia.
Qed.

Lemma relative_time_counts_an_hour_less_witness :
  Dates.getMoroccanRelativeTime (Some 1700000000000%Z) 1700003600000%Z = Dates.Text "Just now"
  /\ Dates.getMoroccanRelativeTime (Some 1700000000000%Z) 1700005400000%Z
     = Dates.Text "30 minutes ago"
  /\ Dates.getMoroccanRelativeTime (Some 1700000000000%Z) 1700007200000%Z
     = Dates.Text "1 hour ago".
Proof.
  split_all.
  - destruct (relative_time_counts_an_hour_less 1700000000000 1700003600000) as (Now & _ & _).
    apply Now. vm_compute. reflexivity.
  - destruct (relative_time_counts_an_hour_less 1700000000000 1700005400000) as (_ & Minutes & _).
    rewrite Minutes; [reflexivity | vm_compute; split; [discriminate | reflexivity]].
  - destruct (relative_time_counts_an_hour_less 1700000000000 1700007200000) as (_ & _ & Hours).
    rewrite Hours; [reflexivity | vm_compute; split; [discriminate | reflexivity]].
Defined.

(** X16.  Whatever the instant and the clock, the text is "Just now" or a
    count of minutes from 1 to 59, of hours from 1 to 23 or of days from 1
    to 29, the unit in the singular for the count 1 alone; anything else
    is the date of an older instant. *)
Theorem relative_time_counts (t now : Z) :
  let r := Dates.getMoroccanRelativeTime (Some t) now in
  let reads (count : Z) (unit : string) :=
    r = Dates.Text (string_of_integer count ++ " " ++ unit
                    ++ (if (count =? 1)%Z then "" else "s") ++ " ago") in
  r = Dates.Text "Just now"
  \/ (exists count, (1 <= count <= 59)%Z /\ reads count "minute")
  \/ (exists count, (1 <= count <= 23)%Z /\ reads count "hour")
  \/ (exists count, (1 <= count <= 29)%Z /\ reads count "day")
  \/ r = Dates.OlderDate.
Proof.
  intros r reads. subst r reads. unfold Dates.getMoroccanRelativeTime.
  set (d := ((now - (t + 1 * 60 * 60 * 1000)) / 1000)%Z).
  assert (Plural : forall count unit, (1 <= count)%Z ->
            Dates.ago count unit
            = string_of_integer count ++ " " ++ unit
              ++ (if (count =? 1)%Z then "" else "s") ++ " ago").
  { intros count unit P. unfold Dates.ago.
    destruct (Z.ltb_spec 1 count), (Z.eqb_spec count 1); try lia; reflexivity. }
  destruct (Z.ltb_spec d 60); [now left|].
  destruct (Z.ltb_spec d 3600).
  { right. left. exists (d / 60)%Z.
    assert (1 <= d / 60 <= 59)%Z.
    { split; [apply Z.div_le_lower_bound; lia | apply Z.lt_succ_r, Z.div_lt_upper_bound; lia]. }
    split; [assumption | now rewrite Plural]. }
  destruct (Z.ltb_spec d 86400).
  { right. right. left. exists (d / 3600)%Z.
    assert (1 <= d / 3600 <= 23)%Z.
    { split; [apply Z.div_le_lower_bound; lia | apply Z.lt_succ_r, Z.div_lt_upper_bound; lia]. }
    split; [assumption | now rewrite Plural]. }
  destruct (Z.ltb_spec d 2592000).
  { right. right. right. left. exists (d / 86400)%Z.
    assert (1 <= d / 86400 <= 29)%Z.
    { split; [apply Z.div_le_lower_bound; lia | apply Z.lt_succ_r, Z.div_lt_upper_bound; lia]. }
    split; [assumption | now rewrite Plural]. }
  right. right. right. right. reflexivity.
Qed.

(** * Properties of the company-name check *)

(** ** Blank names *)

Section WhiteSpace.

Lemma ascii_of_code (c : ascii) (n : nat) : nat_of_ascii c = n -> c = ascii_of_nat n.
Proof. intros <-. symmetry. apply ascii_nat_embedding. Qed.

(** Dropping the white space before a blank string leaves nothing. *)
Lemma trim_start_white (w s : string) :
  In w white_space -> trim_start (w ++ s) = trim_start s.
Proof.
  intros I. cbn in I.
  repeat destruct I as [I | I]; try contradiction I; subst w; reflexivity.
Qed.

Lemma trim_start_blank (s : string) : blank s -> trim_start s = EmptyString.
Proof.
  induction 1 as [|w s I _ IH]; [reflexivity|].
  rewrite trim_start_white by exact I. exact IH.
Qed.

Lemma white_space1 (c : ascii) :
  is_white_space c = true -> In (String c EmptyString) white_space.
Proof.
  unfold is_white_space. intros W.
  assert (C : exists n, nat_of_ascii c = n
                        /\ (n = 9 \/ n = 10 \/ n = 11 \/ n = 12 \/ n = 13 \/ n = 32)%nat).
  { exists (nat_of_ascii c). split; [reflexivity|].
    apply orb_true_iff in W as [W | W].
    - apply andb_true_iff in W as [L U]. apply Nat.leb_le in L, U. lia.
    - apply Nat.eqb_eq in W. lia. }
  destruct C as (n & E & C). apply ascii_of_code in E. subst c.
  repeat destruct C as [C | C]; subst n; cbn; tauto.
Qed.

Lemma white_space2 (c1 c2 : ascii) :
  is_white_space2 c1 c2 = true -> In (String c1 (String c2 EmptyString)) white_space.
Proof.
  unfold is_white_space2. intros W.
  apply andb_true_iff in W as [E1 E2]. apply Nat.eqb_eq in E1, E2.
  apply ascii_of_code in E1, E2. subst c1 c2. cbn. tauto.
Qed.

Lemma white_space3 (c1 c2 c3 : ascii) :
  is_white_space3 c1 c2 c3 = true ->
  In (String c1 (String c2 (String c3 EmptyString))) white_space.
Proof.
  unfold is_white_space3. intros W.
  assert (C : exists n1 n2 n3,
             nat_of_ascii c1 = n1 /\ nat_of_ascii c2 = n2 /\ nat_of_ascii c3 = n3
             /\ ((n1 = 225 /\ n2 = 154 /\ n3 = 128)
                 \/ (n1 = 226 /\ n2 = 128
                     /\ (n3 = 128 \/ n3 = 129 \/ n3 = 130 \/ n3 = 131 \/ n3 = 132
                         \/ n3 = 133 \/ n3 = 134 \/ n3 = 135 \/ n3 = 136 \/ n3 = 137
                         \/ n3 = 138 \/ n3 = 168 \/ n3 = 169 \/ n3 = 175))
                 \/ (n1 = 226 /\ n2 = 129 /\ n3 = 159)
                 \/ (n1 = 227 /\ n2 = 128 /\ n3 = 128)
                 \/ (n1 = 239 /\ n2 = 187 /\ n3 = 191))%nat).
  { exists (nat_of_ascii c1), (nat_of_ascii c2), (nat_of_ascii c3).
    repeat (split; [reflexivity|]).
    repeat match type of W with
           | (_ || _)%bool = true => apply orb_true_iff in W as [W | W]
           end;
      repeat match goal with
             | H : (_ && _)%bool = true |- _ => apply andb_true_iff in H as [? ?]
             | H : (_ || _)%bool = true |- _ => apply orb_true_iff in H as [? | ?]
             | H : (_ =? _)%nat = true |- _ => apply Nat.eqb_eq in H
             | H : (_ <=? _)%nat = true |- _ => apply Nat.leb_le in H
             end; lia. }
  destruct C as (n1 & n2 & n3 & E1 & E2 & E3 & C).
  apply ascii_of_code in E1, E2, E3. subst c1 c2 c3.
  repeat match type of C with
         | _ \/ _ => destruct C as [C | C]
         | _ /\ _ => destruct C as [? C]
         end; subst; cbn; tauto.
Qed.

(** What [trimStart] leaves is empty only for a blank string, and is
    left as it is by a second [trimStart]. *)
Lemma trim_start_spec (k : nat) (s : string) :
  (String.length s <= k)%nat ->
  (trim_start s = EmptyString -> blank s)
  /\ trim_start (trim_start s) = trim_start s.
Proof.
  revert s. induction k as [|k IH]; intros s L.
  - destruct s; [|simpl in L; lia]. split; [intros _; constructor | reflexivity].
  - destruct s as [|c1 rest1]; [split; [intros _; constructor | reflexivity]|].
    simpl in L. cbn [trim_start].
    destruct (is_white_space c1) eqn:W1.
    { destruct (IH rest1 ltac:(lia)) as [B F]. split; [|exact F].
      intros E. apply (blank_more (String c1 EmptyString) rest1);
        [apply white_space1, W1 | apply B, E]. }
    destruct rest1 as [|c2 rest2].
    { split; [discriminate|]. cbn [trim_start]. rewrite W1. reflexivity. }
    simpl in L. destruct (is_white_space2 c1 c2) eqn:W2.
    { destruct (IH rest2 ltac:(lia)) as [B F]. split; [|exact F].
      intros E. apply (blank_more (String c1 (String c2 EmptyString)) rest2);
        [apply white_space2, W2 | apply B, E]. }
    destruct rest2 as [|c3 rest3].
    { split; [discriminate|]. cbn [trim_start]. rewrite W1, W2. reflexivity. }
    simpl in L. destruct (is_white_space3 c1 c2 c3) eqn:W3.
    { destruct (IH rest3 ltac:(lia)) as [B F]. split; [|exact F].
      intros E.
      apply (blank_more (String c1 (String c2 (String c3 EmptyString))) rest3);
        [apply white_space3, W3 | apply B, E]. }
    split; [discriminate|]. cbn [trim_start]. rewrite W1, W2, W3. reflexivity.
Qed.

(** [trim] leaves nothing exactly of a blank string. *)
Lemma trim_blank (s : string) : trim s = EmptyString <-> blank s.
Proof.
  destruct (trim_start_spec (String.length s) s (le_n _)) as [B F].
  unfold trim. split.
  - intros E. apply B.
    destruct (trim_start s) as [|c rest] eqn:T; [reflexivity|].
    cbn [trim_end] in E. unfold all_white_space in E. rewrite F in E.
    discriminate E.
  - intros H. rewrite (trim_start_blank s H). reflexivity.
Qed.

Lemma named_spec (name : option string) :
  NewProfile.named name = true <-> exists s, name = Some s /\ ~ blank s.
Proof.
  destruct name as [s|]; cbn [NewProfile.named].
  - split.
    + intros H. apply andb_true_iff in H as [_ T]. exists s. split; [reflexivity|].
      intros B. apply trim_blank in B. rewrite B in T. discriminate T.
    + intros (s' & E & B). injection E as <-.
      destruct s as [|c rest]; [exfalso; apply B; constructor|].
      cbn [truthy_string andb].
      destruct (trim (String c rest)) eqn:T; [|reflexivity].
      exfalso. apply B, trim_blank, T.
  - split; [discriminate | intros (s & E & _); discriminate E].
Qed.

End WhiteSpace.

(** ** Distinct names *)

Section DistinctNames.
Import NewProfile.

Lemma same_name_spec (a b : option string) : same_name a b = true <-> a = b.
Proof.
  destruct a as [s|], b as [u|]; simpl; split; intros H;
    try discriminate H; try reflexivity.
  - apply String.eqb_eq in H. now subst.
  - injection H as ->. apply String.eqb_refl.
Qed.

Lemma seen_spec (x : option string) (seen : list (option string)) :
  existsb (same_name x) seen = true <-> In x seen.
Proof.
  rewrite existsb_exists. split.
  - intros (y & I & S). apply same_name_spec in S. now subst.
  - intros I. exists x. split; [exact I | now apply same_name_spec].
Qed.

Lemma set_add_In (seen : list (option string)) (x y : option string) :
  In y (set_add seen x) <-> In y seen \/ y = x.
Proof.
  unfold set_add. destruct (existsb (same_name x) seen) eqn:E.
  - apply seen_spec in E. split; [now left | intros [I | ->]; assumption].
  - rewrite in_app_iff. simpl. intuition congruence.
Qed.

Lemma set_add_NoDup (seen : list (option string)) (x : option string) :
  NoDup seen -> NoDup (set_add seen x).
Proof.
  intros N. unfold set_add. destruct (existsb (same_name x) seen) eqn:E; [exact N|].
  assert (A : ~ In x seen).
  { intros I. apply seen_spec in I. congruence. }
  clear E. induction N as [|z rest Z _ IH]; simpl.
  - constructor; [intros [] | constructor].
  - constructor.
    + rewrite in_app_iff. simpl. intros [I | [E | []]]; [now apply Z|].
      apply A. left. symmetry. exact E.
    + apply IH. intros I. apply A. right. exact I.
Qed.

Lemma fold_set_add (xs seen : list (option string)) :
  (NoDup seen -> NoDup (fold_left set_add xs seen))
  /\ (forall y, In y (fold_left set_add xs seen) <-> In y seen \/ In y xs).
Proof.
  revert seen. induction xs as [|x rest IH]; intros seen; simpl.
  - split; [trivial | intros y; tauto].
  - destruct (IH (set_add seen x)) as [N M]. split.
    + intros D. apply N, set_add_NoDup, D.
    + intros y. rewrite M, set_add_In. split; intros H; repeat destruct H as [H|H]; auto.
Qed.

Lemma spread_set_spec (xs : list (option string)) :
  NoDup (spread_set xs) /\ (forall y, In y (spread_set xs) <-> In y xs).
Proof.
  unfold spread_set. destruct (fold_set_add xs []) as [N M]. split.
  - apply N. constructor.
  - intros y. rewrite M. simpl. tauto.
Qed.

Lemma two_members (l : list (option string)) :
  NoDup l ->
  ((1 < List.length l)%nat <-> exists a b, In a l /\ In b l /\ a <> b).
Proof.
  intros N. split.
  - destruct l as [|a [|b rest]]; simpl; try lia. intros _.
    exists a, b. split; [now left|]. split; [right; now left|].
    intros ->. inversion N as [|? ? A]. apply A. now left.
  - intros (a & b & Ia & Ib & D). destruct l as [|x [|y rest]]; simpl; try lia.
    + contradiction Ia.
    + destruct Ia as [<- | []], Ib as [<- | []]. now contradiction D.
Qed.

End DistinctNames.

(** X17.  The mismatch modal opens exactly when two of the company names
    that are strings and not blank (not made of white space only) differ;
    the names it then lists are those names, each one once. *)
Theorem verifyProfile_modal_iff_two_names (results : list NewProfile.individual_result) :
  let kept name :=
    In name (map NewProfile.company_name results)
    /\ exists s, name = Some s /\ ~ blank s in
  ((exists r, NewProfile.verifyProfile (Some results) = Some r)
   <-> exists a b, kept a /\ kept b /\ a <> b)
  /\ (forall r, NewProfile.verifyProfile (Some results) = Some r ->
        NoDup (NewProfile.document_companies r)
        /\ (forall n, In n (NewProfile.document_companies r) <-> kept n)).
Proof.
  intros kept.
  set (names := filter NewProfile.named (map NewProfile.company_name results)).
  assert (Kept : forall n, In n names <-> kept n).
  { intros n. unfold names, kept. rewrite filter_In, named_spec. reflexivity. }
  destruct (spread_set_spec names) as [N M].
  pose proof (two_members (NewProfile.spread_set names) N) as T.
  split.
  - split.
    + intros (r & V). apply verifyProfile_mismatch in V as (_ & _ & E & L).
      fold names in E. rewrite E in L. apply T in L as (a & b & Ia & Ib & D).
      exists a, b. rewrite <- !Kept, <- !M. now split_all.
    + intros (a & b & Ia & Ib & D). apply Kept in Ia, Ib.
      assert (L : (1 < List.length (NewProfile.spread_set names))%nat).
      { apply T. exists a, b. rewrite !M. now split_all. }
      assert (R : (1 < List.length results)%nat).
      { assert (L2 : (1 < List.length names)%nat).
        { destruct names as [|x [|y rest]]; simpl; try lia.
          - contradiction Ia.
          - destruct Ia as [<- | []], Ib as [<- | []]. now contradiction D. }
        pose proof (filter_length_le NewProfile.named (map NewProfile.company_name results)) as F.
        rewrite length_map in F. fold names in F. lia. }
      unfold NewProfile.verifyProfile. fold names.
      apply Nat.ltb_lt in L, R. rewrite R, L. eexists. reflexivity.
  - intros r V. apply verifyProfile_mismatch in V as (_ & _ & E & _).
    fold names in E. rewrite E. split; [exact N|].
    intros n. rewrite M. apply Kept.
Qed.

Lemma verifyProfile_modal_iff_two_names_witness :
  (exists r,
      NewProfile.verifyProfile
        (Some [ named_result "Acme SA"; unnamed_result; named_result "Acme SARL";
                named_result "Acme SA" ]) = Some r
      /\ NoDup (NewProfile.document_companies r)
      /\ In (Some "Acme SARL") (NewProfile.document_companies r))
  /\ NewProfile.verifyProfile
       (Some [ named_result "Acme SA"; named_result (of_bytes [194; 160]%nat) ]) = None.
Proof.
  split; [|reflexivity].
  destruct (verifyProfile_modal_iff_two_names
              [ named_result "Acme SA"; unnamed_result; named_result "Acme SARL";
                named_result "Acme SA" ]) as [Opens Lists].
  assert (Plain : forall s, trim s <> EmptyString -> ~ blank s)
    by (intros s T B; apply T, trim_blank, B).
  destruct Opens as [_ Opens].
  destruct Opens as [r V].
  - exists (Some "Acme SA"), (Some "Acme SARL").
    split; [|split; [|discriminate]].
    + split; [cbn; tauto | exists "Acme SA"; split; [reflexivity | apply Plain; discriminate]].
    + split; [cbn; tauto | exists "Acme SARL"; split; [reflexivity | apply Plain; discriminate]].
  - exists r. destruct (Lists r V) as [N M].
    split; [exact V | split; [exact N|]]. apply M.
    split; [cbn; tauto | exists "Acme SARL"; split; [reflexivity | apply Plain; discriminate]].
Defined.
